(** * xvf3800_doa: register access over USB vendor control transfers

    A shallow embedding of [xvf3800_doa.py]: the parameter table, the
    [ReSpeaker] session with its [write] and [read] methods, device
    discovery ([find]) and the DOA handling of the polling loop in [main].

    Python integers are [Z]; bytes are integers in [0, 255]; Python floats
    (IEEE-754 doubles) are [spec_float] values; a raised exception is the
    [Raise] outcome of a computation; the USB device is an explicit state
    that records every control transfer issued to it.  A run of [main] is a
    computation over what was printed, the session and a count of the points
    the run has reached, in an environment that says at which point
    something is raised (a Ctrl+C, a call that fails). *)

From Stdlib Require Import ZArith Lia DecimalString.
From Stdlib Require Import Floats.SpecFloat.
From stdpp Require Import gmap strings list.

Local Open Scope Z_scope.

(** ** Python values, exceptions and results *)

(** The exceptions the program can raise.  [StructError] is [struct.error];
    [USBError] is [usb.core.USBError] (transport failure or timeout). *)
Inductive exception :=
| ValueError (msg : string)
| OverflowError
| StructError
| AttributeError
| TypeError
| IndexError
| USBError.

Inductive result (A : Type) :=
| Return (a : A)
| Raise (e : exception).
Arguments Return {A} a.
Arguments Raise {A} e.

Definition bind {A B} (r : result A) (k : A -> result B) : result B :=
  match r with
  | Return a => k a
  | Raise e => Raise e
  end.

Notation "x <- r ;; k" := (bind r (fun x => k))
  (at level 100, r at next level, right associativity).

(** Scalars that travel through [write] and [read]. *)
Inductive pyval :=
| PyInt (z : Z)
| PyFloat (f : spec_float).

(** What a method returns: [None], a list ([array.tolist()]) or a tuple
    ([struct.unpack]). *)
Inductive pyobj :=
| PyNone
| PyList (l : list pyval)
| PyTuple (l : list pyval).

(** [seq[i]] for a non-negative index. *)
Definition py_index {A} (l : list A) (i : nat) : result A :=
  match l !! i with
  | Some x => Return x
  | None => Raise IndexError
  end.

(** [seq[lo:hi]], with Python's treatment of negative and oversized bounds. *)
Definition py_clamp (n i : Z) : Z :=
  if i <? 0 then Z.max (i + n) 0 else Z.min i n.

Definition py_slice {A} (lo hi : Z) (l : list A) : list A :=
  let n := Z.of_nat (length l) in
  let lo' := py_clamp n lo in
  let hi' := py_clamp n hi in
  take (Z.to_nat (hi' - lo')) (drop (Z.to_nat lo') l).

(** ** Little-endian byte strings *)

Fixpoint le_split (n : nat) (w : Z) : list Z :=
  match n with
  | O => []
  | S n' => (w mod 256) :: le_split n' (w / 256)
  end.

Fixpoint le_combine (bs : list Z) : Z :=
  match bs with
  | [] => 0
  | b :: bs' => b + 256 * le_combine bs'
  end.

(** ** IEEE-754 single precision ([struct] format [f])

    [write] packs with the native format [b'f']: the double is cast to a C
    [float], that is rounded to the nearest single (ties to even), and the
    four bytes of the result are stored; there is no range check, so a
    finite double beyond the single range is stored as an infinity.  NaN
    carries no payload in [spec_float] and is stored as the quiet NaN
    [0x7FC00000]. *)

Definition f32_prec : Z := 24.
Definition f32_emax : Z := 128.

Definition round_single (x : spec_float) : spec_float :=
  match x with
  | S754_finite s m e => binary_round f32_prec f32_emax s m e
  | _ => x
  end.

Definition join_bits (s : bool) (e m : Z) : Z :=
  (if s then 2 ^ 31 else 0) + e * 2 ^ 23 + m.

(** Bit pattern of a value that already is a single. *)
Definition f32_bits (x : spec_float) : Z :=
  match x with
  | S754_zero s => join_bits s 0 0
  | S754_infinity s => join_bits s 255 0
  | S754_nan => join_bits false 255 (2 ^ 22)
  | S754_finite s m e =>
      if Z.pos m <? 2 ^ 23 then join_bits s 0 (Z.pos m)
      else join_bits s (e + 150) (Z.pos m - 2 ^ 23)
  end.

(** The single with a given bit pattern, as the double of the same value. *)
Definition f32_value (w : Z) : spec_float :=
  let s := Z.testbit w 31 in
  let e := (w / 2 ^ 23) mod 256 in
  let m := w mod 2 ^ 23 in
  if e =? 0 then
    match m with
    | Z.pos p => S754_finite s p (-149)
    | _ => S754_zero s
    end
  else if e =? 255 then
    if m =? 0 then S754_infinity s else S754_nan
  else
    match m + 2 ^ 23 with
    | Z.pos p => S754_finite s p (e - 150)
    | _ => S754_nan
    end.

(** [struct.pack(b'f', x)] on a little-endian host. *)
Definition pack_f (x : spec_float) : result (list Z) :=
  Return (le_split 4 (f32_bits (round_single x))).

(** A single widened to the double of the same value (the conversion is
    exact, so rounding to double precision only renormalises the mantissa). *)
Definition double_of_single (r : spec_float) : spec_float :=
  match r with
  | S754_finite s m e => binary_round 53 1024 s m e
  | _ => r
  end.

(** One [f] item of [struct.unpack('<f...', buf)]. *)
Definition unpack_f (bs : list Z) : spec_float :=
  double_of_single (f32_value (le_combine bs)).

(** [struct.pack('i', x)]: a 32-bit two's-complement integer. *)
Definition pack_i (v : pyval) : result (list Z) :=
  match v with
  | PyInt z =>
      if (- 2 ^ 31 <=? z) && (z <? 2 ^ 31)
      then Return (le_split 4 (z mod 2 ^ 32))
      else Raise StructError
  | PyFloat _ => Raise StructError
  end.

(** [x.to_bytes(1, byteorder='little')]. *)
Definition to_bytes_1 (v : pyval) : result (list Z) :=
  match v with
  | PyInt z =>
      if (0 <=? z) && (z <? 256) then Return [z] else Raise OverflowError
  | PyFloat _ => Raise AttributeError
  end.

(** [float(x)]: an integer is rounded to the nearest double and is too
    large when it rounds to infinity. *)
Definition py_float (v : pyval) : result spec_float :=
  match v with
  | PyFloat f => Return f
  | PyInt z =>
      match binary_normalize 53 1024 z 0 false with
      | S754_infinity _ => Raise OverflowError
      | d => Return d
      end
  end.

(** Split a buffer into consecutive 4-byte items. *)
Fixpoint chunks4 (n : nat) (bs : list Z) : list (list Z) :=
  match n with
  | O => []
  | S n' => take 4 bs :: chunks4 n' (drop 4 bs)
  end.

(** [struct.unpack('<' + 'f' * n, buf)]: the buffer must hold exactly the
    [4 * n] bytes the format asks for. *)
Definition struct_unpack_floats (n : nat) (buf : list Z) : result (list pyval) :=
  if Nat.eqb (length buf) (4 * n)
  then Return (map (fun c => PyFloat (unpack_f c)) (chunks4 n buf))
  else Raise StructError.

(** ** The parameter table *)

(** One entry of [PARAMETERS]: the tuple
    [(resid, cmdid, length, access, data type)]. *)
Record parameter := Entry {
  p_resid : Z;
  p_cmdid : Z;
  p_length : Z;
  p_access : string;
  p_type : string
}.

Definition PARAMETERS : gmap string parameter :=
  list_to_map [
    ("VERSION",            Entry 48 0 3 "ro" "uint8");
    ("AEC_AZIMUTH_VALUES", Entry 33 75 16 "ro" "radians");
    ("DOA_VALUE",          Entry 20 18 4 "ro" "uint16");
    ("REBOOT",             Entry 48 7 1 "wo" "uint8")
  ].

(** ** The USB device *)

(** [usb.util] constants. *)
Definition CTRL_OUT : Z := 0.
Definition CTRL_IN : Z := 128.
Definition CTRL_TYPE_VENDOR : Z := 64.
Definition CTRL_RECIPIENT_DEVICE : Z := 0.

(** Fifth argument of [ctrl_transfer]: the payload of an OUT transfer or
    the number of bytes asked for by an IN transfer. *)
Inductive data_or_wLength :=
| Payload (data : list Z)
| WLength (n : Z).

Record ctrl_request := CtrlRequest {
  bmRequestType : Z;
  bRequest : Z;
  wValue : Z;
  wIndex : Z;
  wData : data_or_wLength;
  timeout : Z
}.

(** A device on the bus.  [transfers] is the history of control transfers
    issued so far, oldest first.  [firmware] is the device's behaviour: given
    the history and a request it answers with bytes ([None] stands for a
    transport failure or timeout, which pyusb reports as [USBError]). *)
Record usb_device := UsbDevice {
  idVendor : Z;
  idProduct : Z;
  transfers : list ctrl_request;
  firmware : list ctrl_request -> ctrl_request -> option (list Z)
}.

(** The device once [rq] has been issued to it. *)
Definition after_transfer (d : usb_device) (rq : ctrl_request) : usb_device :=
  UsbDevice (idVendor d) (idProduct d) (transfers d ++ [rq]) (firmware d).

Definition ctrl_transfer (d : usb_device) (rq : ctrl_request)
  : result (list Z) * usb_device :=
  let d' := after_transfer d rq in
  match firmware d (transfers d) rq with
  | Some bytes => (Return bytes, d')
  | None => (Raise USBError, d')
  end.

(** ** class ReSpeaker *)

Record ReSpeaker := Session { dev : usb_device }.

Definition TIMEOUT : Z := 100000.

(** The payload loops of [write]: [for i in range(data_cnt): payload += ...]. *)
Fixpoint pack_loop (pack : pyval -> result (list Z)) (data_list : list pyval)
    (idx : list nat) (payload : list Z) : result (list Z) :=
  match idx with
  | [] => Return payload
  | i :: idx' =>
      x <- py_index data_list i ;;
      bs <- pack x ;;
      pack_loop pack data_list idx' (payload ++ bs)
  end.

Definition py_range (n : Z) : list nat := seq 0 (Z.to_nat n).

Definition in_types (t : string) (ts : list string) : bool :=
  bool_decide (t ∈ ts).

Definition encode_payload (data : parameter) (data_list : list pyval)
  : result (list Z) :=
  let data_type := p_type data in
  let data_cnt := p_length data in
  if in_types data_type ["float"; "radians"] then
    pack_loop (fun x => f <- py_float x ;; pack_f f) data_list (py_range data_cnt) []
  else if in_types data_type ["char"; "uint8"] then
    pack_loop to_bytes_1 data_list (py_range data_cnt) []
  else
    pack_loop pack_i data_list (py_range data_cnt) [].

Definition write (self : ReSpeaker) (name : string) (data_list : list pyval)
  : result pyobj * ReSpeaker :=
  match PARAMETERS !! name with
  | None => (Return PyNone, self)
  | Some data =>
      if String.eqb (p_access data) "ro" then
        (Raise (ValueError (name +:+ " is read-only")), self)
      else if negb (Z.of_nat (length data_list) =? p_length data) then
        (Raise (ValueError (name +:+ " value count is not "
                  +:+ NilZero.string_of_int (Z.to_int (p_length data)))), self)
      else
        let windex := p_resid data in
        let wvalue := p_cmdid data in
        match encode_payload data data_list with
        | Raise e => (Raise e, self)
        | Return payload =>
            let '(r, d) :=
              ctrl_transfer (dev self)
                (CtrlRequest
                   (Z.lor (Z.lor CTRL_OUT CTRL_TYPE_VENDOR) CTRL_RECIPIENT_DEVICE)
                   0 wvalue windex (Payload payload) TIMEOUT) in
            (_ <- r ;; Return PyNone, Session d)
        end
  end.

(** The decoding branches of [read]. *)
Definition decode_response (data : parameter) (length : Z) (response : list Z)
  : result pyobj :=
  if String.eqb (p_type data) "uint8" then
    Return (PyList (map PyInt response))
  else if String.eqb (p_type data) "radians" then
    let byte_data := response in
    (* int((length - 1) / 4): the quotient truncated towards zero *)
    let num_values := Z.quot (length - 1) 4 in
    l <- struct_unpack_floats (Z.to_nat num_values) (py_slice 1 length byte_data) ;;
    Return (PyTuple l)
  else if String.eqb (p_type data) "uint16" then
    Return (PyList (map PyInt response))
  else
    Return (PyList (map PyInt response)).

Definition read_request (data : parameter) : ctrl_request :=
  let resid := p_resid data in
  let cmdid := Z.lor 128 (p_cmdid data) in
  let length := p_length data + 1 in
  CtrlRequest
    (Z.lor (Z.lor CTRL_IN CTRL_TYPE_VENDOR) CTRL_RECIPIENT_DEVICE)
    0 cmdid resid (WLength length) TIMEOUT.

Definition read (self : ReSpeaker) (name : string)
  : result pyobj * ReSpeaker :=
  match PARAMETERS !! name with
  | None => (Return PyNone, self)
  | Some data =>
      let length := p_length data + 1 in
      let '(r, d) := ctrl_transfer (dev self) (read_request data) in
      (response <- r ;; decode_response data length response, Session d)
  end.

(** ** Device discovery *)

(** [usb.core.find(idVendor=..., idProduct=...)]: the first device on the
    bus with the requested identifiers, [None] when there is none. *)
Definition usb_core_find (vid : Z) (pid : option Z) (bus : list usb_device)
  : option usb_device :=
  List.find
    (fun d => (idVendor d =? vid) &&
              match pid with Some p => idProduct d =? p | None => true end)
    bus.

Definition vids_pids : list (Z * Z) := [(0x2886, 0x001A); (0x2886, 0x0018)].

Fixpoint find_loop (cands : list (Z * Z)) (bus : list usb_device)
  : option ReSpeaker :=
  match cands with
  | [] => None
  | (vid, pid) :: cands' =>
      match usb_core_find vid (Some pid) bus with
      | Some d => Some (Session d)
      | None => find_loop cands' bus
      end
  end.

(** A device object is always true, so [if dev:] only tests for [None]. *)
Definition find (bus : list usb_device) : option ReSpeaker :=
  match find_loop vids_pids bus with
  | Some s => Some s
  | None =>
      match usb_core_find 0x2886 None bus with
      | Some d => Some (Session d)
      | None => None
      end
  end.

(** What discovery is expected to select, stated on the bus itself. *)
Definition has_ids (vid pid : Z) (d : usb_device) : Prop :=
  idVendor d = vid /\ idProduct d = pid.

Definition has_vendor (vid : Z) (d : usb_device) : Prop :=
  idVendor d = vid.

(** [d] is the first device of [bus], in bus order, that satisfies [P]. *)
Definition first_on_bus (P : usb_device -> Prop) (bus : list usb_device)
    (d : usb_device) : Prop :=
  exists before after,
    bus = before ++ d :: after /\ P d /\ Forall (fun x => ~ P x) before.

(** ** The DOA part of the polling loop *)

Definition py_or (a b : pyval) : result pyval :=
  match a, b with
  | PyInt x, PyInt y => Return (PyInt (Z.lor x y))
  | _, _ => Raise TypeError
  end.

Definition py_lshift (a : pyval) (n : Z) : result pyval :=
  match a with
  | PyInt x => Return (PyInt (Z.shiftl x n))
  | PyFloat _ => Raise TypeError
  end.

(** Truth value of what [read] returned: [None] and empty sequences are
    false. *)
Definition truthy (o : pyobj) : bool :=
  match o with
  | PyNone => false
  | PyList l | PyTuple l => negb (Nat.eqb (length l) 0)
  end.

Definition items (o : pyobj) : list pyval :=
  match o with
  | PyNone => []
  | PyList l | PyTuple l => l
  end.

(** The values printed on the [[DOA_VALUE]] line. *)
Record doa_line := DoaLine {
  status : pyval;
  speech_flag : option pyval;
  angle_raw : option pyval
}.

(** Body of [if doa and len(doa) > 0:]; [None] when the branch is skipped. *)
Definition doa_fields (doa : pyobj) : result (option doa_line) :=
  if truthy doa && (0 <? Z.of_nat (length (items doa))) then
    let l := items doa in
    status <- py_index l 0 ;;
    angle_raw <-
      (if 3 <=? Z.of_nat (length l) then
         lo <- py_index l 1 ;;
         hi <- py_index l 2 ;;
         sh <- py_lshift hi 8 ;;
         a <- py_or lo sh ;;
         Return (Some a)
       else if 2 <=? Z.of_nat (length l) then
         a <- py_index l 1 ;;
         Return (Some a)
       else Return None) ;;
    speech_flag <-
      (if 3 <? Z.of_nat (length l) then
         f <- py_index l 3 ;; Return (Some f)
       else Return None) ;;
    Return (Some (DoaLine status speech_flag angle_raw))
  else Return None.

(** ** Error taxonomy

    Both rejections of [write] are [ValueError]s; they differ by message. *)

Definition AccessDenied (name : string) : exception :=
  ValueError (name +:+ " is read-only").

Definition ArgumentCountMismatch (name : string) (count : Z) : exception :=
  ValueError (name +:+ " value count is not "
                +:+ NilZero.string_of_int (Z.to_int count)).

(** ** Sample devices *)

(** A device that answers every request with the same bytes. *)
Definition constant_device (pid : Z) (answer : list Z) : usb_device :=
  UsbDevice 0x2886 pid [] (fun _ _ => Some answer).

Definition sample_session (answer : list Z) : ReSpeaker :=
  Session (constant_device 0x001A answer).

(** The doubles 1.0, 2.0, ..., 16.0. *)
Definition sample_values : list spec_float :=
  map (fun z => binary_normalize 53 1024 z 0 false)
    [1; 2; 3; 4; 5; 6; 7; 8; 9; 10; 11; 12; 13; 14; 15; 16].

(** Bytes of the single nearest to pi/2. *)
Definition half_pi_bytes : list Z := [219; 15; 201; 63].

Definition azimuth_answer : list Z :=
  0 :: half_pi_bytes ++ half_pi_bytes ++ half_pi_bytes ++ half_pi_bytes.

(** ** The azimuth part of the polling loop *)

(** The double constants [180.0] and [math.pi]. *)
Definition float_180 : spec_float := S754_finite false 6333186975989760 (-45).
Definition math_pi : spec_float := S754_finite false 7074237752028440 (-51).

(** [f * 180.0 / math.pi] in double arithmetic. *)
Definition degrees (f : spec_float) : spec_float :=
  SFdiv 53 1024 (SFmul 53 1024 f float_180) math_pi.

(** [x * 180.0 / math.pi]; an integer operand is first converted as
    [float(x)] is. *)
Definition to_degrees (x : pyval) : result spec_float :=
  f <- py_float x ;;
  Return (degrees f).

(** Body of [if az_values and len(az_values) > 0:]: the one or two angles of
    the [[AZIMUTH]] line, before they are formatted; [None] when the branch
    is skipped. *)
Definition azimuth_fields (az_values : pyobj)
  : result (option (spec_float * option spec_float)) :=
  if truthy az_values && (0 <? Z.of_nat (length (items az_values))) then
    let l := items az_values in
    a0 <- py_index l 0 ;;
    angle0_deg <- to_degrees a0 ;;
    if 1 <? Z.of_nat (length l) then
      a1 <- py_index l 1 ;;
      angle1_deg <- to_degrees a1 ;;
      Return (Some (angle0_deg, Some angle1_deg))
    else Return (Some (angle0_deg, None))
  else Return None.

(** ** main *)

(** What the program does besides USB transfers, in order: one event per
    [print] call, carrying the values it shows (their formatting is left to
    Python), one per completed [time.sleep], and one for [close], which
    disposes of the resources of the session's device. *)
Inductive event :=
| NoDeviceFound
| VersionRaw (version : pyobj)
| Banner
| RawDoa (doa : pyobj)
| DoaShown (line : doa_line)
| AzimuthShown (angle0_deg : spec_float) (angle1_deg : option spec_float)
| Separator
| Slept
| Stopped
| Closed (d : usb_device).

(** [ReSpeaker.close]. *)
Definition close (self : ReSpeaker) : event := Closed (dev self).

(** What can be raised in the program: an exception of [read] or of the
    pure computations, the user's Ctrl+C, or an exception of any other class
    (a [print] that fails on a closed or badly encoded console, for
    instance). *)
Inductive signal :=
| Exn (e : exception)
| KeyboardInterrupt
| Other (name : string).

(** The environment of a run.  The points of [main] at which something
    observable happens or control can be lost (the USB search, every
    transfer, every [print], every [time.sleep], the entry into [try], the
    [close], the exit) are numbered in the order in which the run
    reaches them, from 0.  When the environment answers [Some sig] at a
    point, [sig] is raised there in place of the step: a Ctrl+C that arrives
    at that moment, or the step failing.  A Ctrl+C in the middle of a step
    is observed either as one before it or as one before the next step. *)
Definition environment := nat -> option signal.

(** No failure and no interrupt at all. *)
Definition silent : environment := fun _ => None.

(** A single Ctrl+C, at point [k]. *)
Definition only_interrupt (k : nat) : environment :=
  fun i => if Nat.eqb i k then Some KeyboardInterrupt else None.

(** What a piece of the program does: it completes with a value, it raises,
    or it is still running when the observation stops. *)
Inductive outcome (A : Type) :=
| Done (a : A)
| Raised (sig : signal)
| Running.
Arguments Done {A} a.
Arguments Raised {A} sig.
Arguments Running {A}.

(** The state of a run after a device was found: the number of the next
    point, what was printed and done so far, and the session. *)
Record run_state := RunState {
  clock : nat;
  console : list event;
  session : ReSpeaker
}.

Definition M (A : Type) : Type := environment -> run_state -> outcome A * run_state.

Definition ret {A} (a : A) : M A := fun _ st => (Done a, st).

Definition mbind {A B} (m : M A) (k : A -> M B) : M B :=
  fun env st =>
    match m env st with
    | (Done a, st') => k a env st'
    | (Raised sig, st') => (Raised sig, st')
    | (Running, st') => (Running, st')
    end.

Notation "x <~ m ;; k" := (mbind m (fun x => k))
  (at level 100, m at next level, right associativity).

(** One numbered point: the environment may raise there; otherwise the
    effect takes place. *)
Definition step {A} (effect : run_state -> outcome A * run_state) : M A :=
  fun env st =>
    let st' := RunState (S (clock st)) (console st) (session st) in
    match env (clock st) with
    | Some sig => (Raised sig, st')
    | None => effect st'
    end.

(** A value or an exception of the pure computations. *)
Definition pure {A} (r : result A) : M A :=
  fun _ st =>
    (match r with Return a => Done a | Raise e => Raised (Exn e) end, st).

(** A [print], a [time.sleep] or the [close]: one more event. *)
Definition say (ev : event) : M unit :=
  step (fun st => (Done tt, RunState (clock st) (console st ++ [ev]) (session st))).

(** [dev.read(name)]. *)
Definition reading (name : string) : M pyobj :=
  step (fun st =>
          let '(r, self) := read (session st) name in
          (match r with Return v => Done v | Raise e => Raised (Exn e) end,
           RunState (clock st) (console st) self)).

(** [dev.close()]. *)
Definition closing : M unit :=
  step (fun st =>
          (Done tt,
           RunState (clock st) (console st ++ [close (session st)]) (session st))).

(** A point where nothing is done but control can be lost: the entry into
    the [try] block, the exit from the [finally] block. *)
Definition checkpoint : M unit := step (fun st => (Done tt, st)).

Definition show_doa (shown : option doa_line) : M unit :=
  match shown with
  | Some line => say (DoaShown line)
  | None => ret tt
  end.

Definition show_azimuth (shown : option (spec_float * option spec_float)) : M unit :=
  match shown with
  | Some (angle0_deg, angle1_deg) => say (AzimuthShown angle0_deg angle1_deg)
  | None => ret tt
  end.

(** One pass through the body of the loop, up to the separator line. *)
Definition poll : M unit :=
  doa <~ reading "DOA_VALUE" ;;
  _ <~ say (RawDoa doa) ;;
  shown <~ pure (doa_fields doa) ;;
  _ <~ show_doa shown ;;
  az_values <~ reading "AEC_AZIMUTH_VALUES" ;;
  shown <~ pure (azimuth_fields az_values) ;;
  _ <~ show_azimuth shown ;;
  say Separator.

(** [while True:], observed for at most [rounds] iterations: the loop is
    left only by something raised in it. *)
Fixpoint polling (rounds : nat) : M unit :=
  match rounds with
  | O => fun _ st => (Running, st)
  | S rounds' =>
      _ <~ poll ;;
      _ <~ say Slept ;;
      polling rounds'
  end.

(** [try: ... except KeyboardInterrupt: print(...) finally: dev.close()].
    The handler runs for [KeyboardInterrupt] only; the [finally] block runs
    whatever was raised, and what it raises itself replaces what was
    pending. *)
Definition guarded (rounds : nat) : M unit :=
  fun env st =>
    match polling rounds env st with
    | (Running, st1) => (Running, st1)
    | (body, st1) =>
        let '(pending, st2) :=
          match body with
          | Raised KeyboardInterrupt => say Stopped env st1
          | _ => (body, st1)
          end in
        match closing env st2 with
        | (Done _, st3) =>
            match checkpoint env st3 with
            | (Done _, st4) => (pending, st4)
            | (r, st4) => (r, st4)
            end
        | (r, st3) => (r, st3)
        end
    end.

(** How [main] ends: it returns (exit status 0), [sys.exit(code)], an
    exception leaves it, or it is still running when the observation
    stops. *)
Inductive ending :=
| Finished
| SystemExit (code : Z)
| Uncaught (sig : signal)
| StillRunning.

(** The outcome of [main] once a device was found. *)
Definition conclude (r : outcome unit * run_state)
  : ending * option ReSpeaker * list event :=
  let '(o, st) := r in
  (match o with
   | Done _ => Finished
   | Raised sig => Uncaught sig
   | Running => StillRunning
   end,
   Some (session st), console st).

(** [main], in the environment [env] and observed for at most [rounds]
    iterations of its loop.  Point 0 is the search for the device; without
    a device, points 1 and 2 are the [print] and the [sys.exit(1)]; with
    one, points 1 to 3 are the [VERSION] read and the two [print]s that
    precede the [try] statement, and point 4 is the entry into it.  The
    result is how the run ends, the session (if a device was found) and
    what was printed and done. *)
Definition main (bus : list usb_device) (env : environment) (rounds : nat)
  : ending * option ReSpeaker * list event :=
  match env 0%nat with
  | Some sig => (Uncaught sig, None, [])
  | None =>
      match find bus with
      | None =>
          match env 1%nat with
          | Some sig => (Uncaught sig, None, [])
          | None =>
              match env 2%nat with
              | Some sig => (Uncaught sig, None, [NoDeviceFound])
              | None => (SystemExit 1, None, [NoDeviceFound])
              end
          end
      | Some dev =>
          conclude
            ((version <~ reading "VERSION" ;;
              _ <~ say (VersionRaw version) ;;
              _ <~ say Banner ;;
              _ <~ checkpoint ;;
              guarded rounds) env (RunState 1 [] dev))
      end
  end.

(** ** Reference decoders and sample runs *)

(** A value that fits one byte. *)
Definition is_byte (b : Z) : Prop := 0 <= b < 256.

(** A 32-bit pattern read as a two's-complement integer. *)
Definition signed32 (w : Z) : Z := if w <? 2 ^ 31 then w else w - 2 ^ 32.

(** Width in bytes of one encoded element of a register of type [t]. *)
Definition bytes_per_element (t : string) : nat :=
  if in_types t ["float"; "radians"] then 4
  else if in_types t ["char"; "uint8"] then 1
  else 4.

Definition sample_ints : list Z := [-1; 0; 300; - 2 ^ 31].

(** A device that answers every IN request with as many bytes as it asks
    for, all equal to [b], and accepts every OUT request. *)
Definition obedient_device (pid : Z) (b : Z) : usb_device :=
  UsbDevice 0x2886 pid []
    (fun _ rq => match wData rq with
                 | WLength n => Some (replicate (Z.to_nat n) b)
                 | Payload _ => Some []
                 end).

(** A device on which every transfer fails. *)
Definition dead_device (pid : Z) : usb_device :=
  UsbDevice 0x2886 pid [] (fun _ _ => None).

(** The read requests of the three registers [main] uses. *)
Definition version_request : ctrl_request :=
  read_request (Entry 48 0 3 "ro" "uint8").

Definition doa_request : ctrl_request :=
  read_request (Entry 20 18 4 "ro" "uint16").

Definition azimuth_request : ctrl_request :=
  read_request (Entry 33 75 16 "ro" "radians").

(** The requests [main] sends: [VERSION] once, then [DOA_VALUE] and
    [AEC_AZIMUTH_VALUES] in turn. *)
Definition schedule (iterations : nat) : list ctrl_request :=
  version_request ::
  concat (replicate iterations [doa_request; azimuth_request]).

Definition is_closed (ev : event) : bool :=
  match ev with Closed _ => true | _ => false end.

Definition is_azimuth (ev : event) : bool :=
  match ev with AzimuthShown _ _ => true | _ => false end.

(** The events an iteration of the loop is expected to produce: never a
    [close], and an azimuth line only with both angles. *)
Definition loop_event (ev : event) : Prop :=
  match ev with
  | RawDoa _ | DoaShown _ | AzimuthShown _ (Some _) | Separator | Slept => True
  | _ => False
  end.

(** The device once the requests [issued] have been sent to it, in order. *)
Definition with_transfers (d : usb_device) (issued : list ctrl_request)
  : usb_device :=
  UsbDevice (idVendor d) (idProduct d) (transfers d ++ issued) (firmware d).

(** A device whose transport never fails and that answers every IN request
    with exactly the number of bytes asked for. *)
Definition answers_in_full (d : usb_device) : Prop :=
  forall history rq n,
    wData rq = WLength n -> 0 <= n ->
    exists bytes,
      firmware d history rq = Some bytes /\ Z.of_nat (length bytes) = n.


(** The events printed before the [try] statement. *)
Definition prelude_event (ev : event) : Prop :=
  match ev with
  | VersionRaw _ | Banner => True
  | _ => False
  end.

(** What the [except] and [finally] blocks add to the output, by outcome:
    a normal return has printed the stop message and closed the device [d];
    when something is raised in these blocks, either step may be missing. *)
Definition epilogue (d : usb_device) (r : outcome unit) (post : list event)
  : Prop :=
  match r with
  | Done _ => post = [Stopped; Closed d]
  | Running => post = []
  | Raised _ =>
      post = [] \/ post = [Stopped] \/ post = [Closed d] \/
      post = [Stopped; Closed d]
  end.

(** A piece of the loop behaves: in every environment and from every state
    it prints loop events only, the requests it sends are a prefix of
    [planned], the whole of it when it completes, and the value it completes
    with satisfies [Q]. *)
Definition behaves {A} (m : M A) (planned : list ctrl_request)
    (Q : A -> Prop) : Prop :=
  forall env st,
  exists r c ev issued rest,
    m env st =
      (r, RunState c (console st ++ ev)
            (Session (with_transfers (dev (session st)) issued))) /\
    Forall loop_event ev /\
    planned = issued ++ rest /\
    (forall a, r = Done a -> rest = [] /\ Q a).

(** The requests of one iteration that were sent before its point [r]
    (points 0 to 6: the DOA read, two [print]s, the azimuth read, two
    [print]s and the [time.sleep]), when every read succeeds and both
    lines are printed. *)
Definition iteration_reads (r : nat) : list ctrl_request :=
  match r with
  | 0%nat => []
  | 1%nat | 2%nat | 3%nat => [doa_request]
  | _ => [doa_request; azimuth_request]
  end.

(** * Properties *)

(** ** The registry *)

Lemma PARAMETERS_lookup name data :
  PARAMETERS !! name = Some data ->
  (name, data) ∈ [("VERSION", Entry 48 0 3 "ro" "uint8");
                  ("AEC_AZIMUTH_VALUES", Entry 33 75 16 "ro" "radians");
                  ("DOA_VALUE", Entry 20 18 4 "ro" "uint16");
                  ("REBOOT", Entry 48 7 1 "wo" "uint8")].
Proof.
  unfold PARAMETERS. intros H.
  apply elem_of_list_to_map_2 in H. exact H.
Qed.

Lemma registered_radians name data :
  PARAMETERS !! name = Some data ->
  p_type data = "radians" ->
  name = "AEC_AZIMUTH_VALUES" /\ data = Entry 33 75 16 "ro" "radians".
Proof.
  intros H Ht. apply PARAMETERS_lookup in H.
  repeat (apply elem_of_cons in H; destruct H as [H | H]);
    [ injection H as -> -> .. | apply elem_of_nil in H; destruct H ];
    simpl in Ht; try discriminate.
  auto.
Qed.

(** ** How [read] and [write] unfold on a registered name *)

Lemma read_registered self name data :
  PARAMETERS !! name = Some data ->
  read self name =
    (match firmware (dev self) (transfers (dev self)) (read_request data) with
     | Some response => decode_response data (p_length data + 1) response
     | None => Raise USBError
     end,
     Session (after_transfer (dev self) (read_request data))).
Proof.
  intros H. unfold read, ctrl_transfer. rewrite H.
  destruct (firmware _ _ _); reflexivity.
Qed.

Lemma write_read_only self name data data_list :
  PARAMETERS !! name = Some data ->
  p_access data = "ro" ->
  write self name data_list = (Raise (AccessDenied name), self).
Proof.
  intros H Hro. unfold write. rewrite H, Hro. reflexivity.
Qed.

Lemma write_count_mismatch self name data data_list :
  PARAMETERS !! name = Some data ->
  p_access data <> "ro" ->
  Z.of_nat (length data_list) <> p_length data ->
  write self name data_list =
    (Raise (ArgumentCountMismatch name (p_length data)), self).
Proof.
  intros H Hro Hlen. unfold write. rewrite H.
  destruct (String.eqb_spec (p_access data) "ro") as [E | _]; [contradiction |].
  destruct (Z.eqb_spec (Z.of_nat (length data_list)) (p_length data)) as [E | _];
    [contradiction |].
  reflexivity.
Qed.

(** ** Unknown names *)

(** C5: for a name that is not a key of [PARAMETERS], [read] and [write]
    both return [None] without raising, and leave the session (hence the
    device and its transfer history) exactly as it was: nothing is
    transferred. *)
Theorem unknown_name_is_noop self name data_list :
  PARAMETERS !! name = None ->
  read self name = (Return PyNone, self) /\
  write self name data_list = (Return PyNone, self).
Proof.
  intros H. unfold read, write. rewrite H. split; reflexivity.
Qed.

Lemma unknown_name_is_noop_witness :
  read (sample_session []) "GAIN" = (Return PyNone, sample_session []) /\
  write (sample_session []) "GAIN" [PyInt 1] = (Return PyNone, sample_session []).
Proof.
  apply (unknown_name_is_noop (sample_session []) "GAIN" [PyInt 1]).
  reflexivity.
Defined.

(** ** Rejections of [write] *)

(** C4: on a register whose access mode is read-only, [write] raises the
    read-only error whatever the values are, and the session it leaves is
    the one it was given: no transfer has been issued. *)
Theorem write_read_only_denied self name data data_list :
  PARAMETERS !! name = Some data ->
  p_access data = "ro" ->
  write self name data_list = (Raise (AccessDenied name), self) /\
  transfers (dev (snd (write self name data_list))) = transfers (dev self).
Proof.
  intros H Hro. rewrite (write_read_only self name data data_list H Hro).
  split; reflexivity.
Qed.

Lemma write_read_only_denied_witness :
  write (sample_session []) "DOA_VALUE" [PyInt 1; PyFloat S754_nan] =
    (Raise (AccessDenied "DOA_VALUE"), sample_session []) /\
  transfers (dev (snd (write (sample_session []) "DOA_VALUE"
                         [PyInt 1; PyFloat S754_nan]))) =
    transfers (dev (sample_session [])).
Proof.
  apply (write_read_only_denied (sample_session []) "DOA_VALUE"
           (Entry 20 18 4 "ro" "uint16")); reflexivity.
Defined.

(** C3, as stated, fails: [VERSION] is registered with three elements, an
    empty value sequence has the wrong length, and [write] reports the
    read-only error, not the count mismatch. *)
Lemma count_mismatch_on_read_only_counterexample :
  PARAMETERS !! "VERSION" = Some (Entry 48 0 3 "ro" "uint8") /\
  Z.of_nat (length (@nil pyval)) <> 3 /\
  fst (write (sample_session []) "VERSION" []) = Raise (AccessDenied "VERSION") /\
  fst (write (sample_session []) "VERSION" [])
    <> Raise (ArgumentCountMismatch "VERSION" 3).
Proof.
  repeat split; try reflexivity; discriminate.
Qed.

(** C3, amended: when the value sequence has the wrong length, [write] on a
    registered name that is not read-only raises the count-mismatch error,
    and on a read-only name it raises the read-only error; in both cases no
    transfer is issued. *)
Theorem write_wrong_count_rejected self name data data_list :
  PARAMETERS !! name = Some data ->
  Z.of_nat (length data_list) <> p_length data ->
  write self name data_list =
    (Raise (if String.eqb (p_access data) "ro"
            then AccessDenied name
            else ArgumentCountMismatch name (p_length data)),
     self).
Proof.
  intros H Hlen.
  destruct (String.eqb_spec (p_access data) "ro") as [Hro | Hro].
  - exact (write_read_only self name data data_list H Hro).
  - exact (write_count_mismatch self name data data_list H Hro Hlen).
Qed.

Lemma write_wrong_count_rejected_witness :
  write (sample_session []) "REBOOT" [PyInt 1; PyInt 2] =
    (Raise (ArgumentCountMismatch "REBOOT" 1), sample_session []).
Proof.
  apply (write_wrong_count_rejected (sample_session []) "REBOOT"
           (Entry 48 7 1 "wo" "uint8") [PyInt 1; PyInt 2]).
  - reflexivity.
  - simpl. lia.
Defined.

(** ** The transfer issued by [read] *)

(** C6: on a registered name [read] issues exactly one control transfer,
    appended to the device's history, with [wValue = 0x80 | cmdid],
    [wIndex = resid] and a requested length of [length + 1]; this holds
    whatever the device answers. *)
Theorem read_transfer_shape self name data :
  PARAMETERS !! name = Some data ->
  exists rq,
    transfers (dev (snd (read self name))) = transfers (dev self) ++ [rq] /\
    wValue rq = Z.lor 0x80 (p_cmdid data) /\
    wIndex rq = p_resid data /\
    wData rq = WLength (p_length data + 1) /\
    bRequest rq = 0.
Proof.
  intros H. exists (read_request data).
  rewrite (read_registered self name data H). simpl.
  repeat split; reflexivity.
Qed.

Lemma read_transfer_shape_witness :
  exists rq,
    transfers (dev (snd (read (sample_session [0; 44; 1; 1]) "DOA_VALUE"))) =
      transfers (dev (sample_session [0; 44; 1; 1])) ++ [rq] /\
    wValue rq = Z.lor 0x80 18 /\
    wIndex rq = 20 /\
    wData rq = WLength (4 + 1) /\
    bRequest rq = 0.
Proof.
  apply (read_transfer_shape (sample_session [0; 44; 1; 1]) "DOA_VALUE"
           (Entry 20 18 4 "ro" "uint16")).
  reflexivity.
Defined.

(** ** Discovery *)

Lemma usb_core_find_Some vid pid bus d :
  usb_core_find vid pid bus = Some d ->
  d ∈ bus /\ idVendor d = vid /\
  match pid with Some p => idProduct d = p | None => True end.
Proof.
  unfold usb_core_find. intros H.
  apply find_some in H as [Hin Hm].
  apply andb_prop in Hm as [Hv Hp].
  split; [now apply list_elem_of_In |].
  split; [now apply Z.eqb_eq |].
  destruct pid; [now apply Z.eqb_eq | exact I].
Qed.

Lemma usb_core_find_None vid pid bus :
  usb_core_find vid pid bus = None ->
  forall d, d ∈ bus -> idVendor d = vid ->
  match pid with Some p => idProduct d <> p | None => False end.
Proof.
  unfold usb_core_find. intros H d Hin Hv.
  apply list_elem_of_In in Hin.
  pose proof (find_none _ _ H d Hin) as Hm. simpl in Hm.
  apply andb_false_iff in Hm as [Hm | Hm].
  - apply Z.eqb_neq in Hm. contradiction.
  - destruct pid; [now apply Z.eqb_neq | discriminate].
Qed.

(** [find] with its loop unrolled. *)
Lemma find_priority bus :
  find bus =
    match usb_core_find 0x2886 (Some 0x001A) bus with
    | Some d => Some (Session d)
    | None =>
        match usb_core_find 0x2886 (Some 0x0018) bus with
        | Some d => Some (Session d)
        | None =>
            match usb_core_find 0x2886 None bus with
            | Some d => Some (Session d)
            | None => None
            end
        end
    end.
Proof.
  unfold find, vids_pids. cbn [find_loop].
  destruct (usb_core_find 10374 (Some 26) bus); [reflexivity |].
  destruct (usb_core_find 10374 (Some 24) bus); reflexivity.
Qed.

Lemma list_find_first {A} (f : A -> bool) (l : list A) (x : A) :
  (exists before after,
     l = before ++ x :: after /\ f x = true /\ Forall (fun y => f y = false) before) ->
  List.find f l = Some x.
Proof.
  intros (before & after & -> & Hx & Hbefore).
  induction Hbefore as [| y before Hy _ IH]; cbn [app List.find].
  - now rewrite Hx.
  - now rewrite Hy.
Qed.

Lemma list_find_absent {A} (f : A -> bool) (l : list A) :
  (forall y, y ∈ l -> f y = false) -> List.find f l = None.
Proof.
  induction l as [| y l IH]; intros H; [reflexivity |].
  cbn [List.find]. rewrite (H y) by apply list_elem_of_here.
  apply IH. intros z Hz. apply H. now apply list_elem_of_further.
Qed.

Lemma ids_match_true vid pid d :
  (idVendor d =? vid) && (idProduct d =? pid) = true <-> has_ids vid pid d.
Proof. unfold has_ids. rewrite andb_true_iff, !Z.eqb_eq. reflexivity. Qed.

Lemma ids_match_false vid pid d :
  (idVendor d =? vid) && (idProduct d =? pid) = false <-> ~ has_ids vid pid d.
Proof. rewrite <- ids_match_true. now destruct (_ && _). Qed.

Lemma vendor_match_true vid d :
  (idVendor d =? vid) && true = true <-> has_vendor vid d.
Proof. unfold has_vendor. rewrite andb_true_r, Z.eqb_eq. reflexivity. Qed.

Lemma vendor_match_false vid d :
  (idVendor d =? vid) && true = false <-> ~ has_vendor vid d.
Proof. rewrite <- vendor_match_true. now destruct (_ && _). Qed.

Lemma usb_core_find_first_ids vid pid bus d :
  first_on_bus (has_ids vid pid) bus d -> usb_core_find vid (Some pid) bus = Some d.
Proof.
  intros (before & after & Hbus & Hd & Hbefore). unfold usb_core_find.
  apply list_find_first. exists before, after.
  split; [exact Hbus |]. split; [now apply ids_match_true |].
  eapply Forall_impl; [exact Hbefore |]. intros x Hx. now apply ids_match_false.
Qed.

Lemma usb_core_find_first_vendor vid bus d :
  first_on_bus (has_vendor vid) bus d -> usb_core_find vid None bus = Some d.
Proof.
  intros (before & after & Hbus & Hd & Hbefore). unfold usb_core_find.
  apply list_find_first. exists before, after.
  split; [exact Hbus |]. split; [now apply vendor_match_true |].
  eapply Forall_impl; [exact Hbefore |]. intros x Hx. now apply vendor_match_false.
Qed.

Lemma usb_core_find_absent_ids vid pid (bus : list usb_device) :
  (forall x, x ∈ bus -> ~ has_ids vid pid x) -> usb_core_find vid (Some pid) bus = None.
Proof.
  intros H. unfold usb_core_find. apply list_find_absent.
  intros y Hy. apply ids_match_false. now apply H.
Qed.

Lemma usb_core_find_absent_vendor vid (bus : list usb_device) :
  (forall x, x ∈ bus -> ~ has_vendor vid x) -> usb_core_find vid None bus = None.
Proof.
  intros H. unfold usb_core_find. apply list_find_absent.
  intros y Hy. apply vendor_match_false. now apply H.
Qed.

Lemma vendor_absent_ids vid pid (bus : list usb_device) :
  (forall x, x ∈ bus -> ~ has_vendor vid x) ->
  forall x, x ∈ bus -> ~ has_ids vid pid x.
Proof. intros H x Hx [Hv _]. exact (H x Hx Hv). Qed.

(** C7: discovery, on the devices of the bus.  [find] returns a session on
    the first connected device with ids [(0x2886, 0x001A)] when there is
    one; otherwise on the first connected device with ids [(0x2886, 0x0018)]
    when there is one; only when no connected device has either pair does it
    fall back to the first connected device with vendor id [0x2886]; and
    when no connected device has that vendor id it returns [None]. *)
Theorem find_first_match bus :
  (forall d, first_on_bus (has_ids 0x2886 0x001A) bus d ->
             find bus = Some (Session d)) /\
  ((forall x, x ∈ bus -> ~ has_ids 0x2886 0x001A x) ->
   forall d, first_on_bus (has_ids 0x2886 0x0018) bus d ->
             find bus = Some (Session d)) /\
  ((forall x, x ∈ bus -> ~ has_ids 0x2886 0x001A x) ->
   (forall x, x ∈ bus -> ~ has_ids 0x2886 0x0018 x) ->
   forall d, first_on_bus (has_vendor 0x2886) bus d ->
             find bus = Some (Session d)) /\
  ((forall x, x ∈ bus -> ~ has_vendor 0x2886 x) -> find bus = None).
Proof.
  unfold find, vids_pids. cbn [find_loop]. repeat split.
  - intros d Hd. now rewrite (usb_core_find_first_ids _ _ _ _ Hd).
  - intros Hno d Hd.
    rewrite (usb_core_find_absent_ids _ _ _ Hno).
    now rewrite (usb_core_find_first_ids _ _ _ _ Hd).
  - intros Hno1 Hno2 d Hd.
    rewrite (usb_core_find_absent_ids _ _ _ Hno1).
    rewrite (usb_core_find_absent_ids _ _ _ Hno2).
    now rewrite (usb_core_find_first_vendor _ _ _ Hd).
  - intros Hno.
    rewrite (usb_core_find_absent_ids _ _ _ (vendor_absent_ids _ 0x001A _ Hno)).
    rewrite (usb_core_find_absent_ids _ _ _ (vendor_absent_ids _ 0x0018 _ Hno)).
    now rewrite (usb_core_find_absent_vendor _ _ Hno).
Qed.

Lemma find_first_match_witness :
  find [dead_device 0x0099; constant_device 0x0018 [1]; constant_device 0x001A [2]] =
    Some (Session (constant_device 0x001A [2])) /\
  find [dead_device 0x0099; constant_device 0x0018 [1]; constant_device 0x0018 [3]] =
    Some (Session (constant_device 0x0018 [1])) /\
  find [UsbDevice 0x1D6B 0x0002 [] (fun _ _ => None); dead_device 0x0099] =
    Some (Session (dead_device 0x0099)) /\
  find [UsbDevice 0x1D6B 0x0002 [] (fun _ _ => None)] = None.
Proof.
  split; [| split; [| split]].
  - apply (proj1 (find_first_match
                    [dead_device 0x0099; constant_device 0x0018 [1];
                     constant_device 0x001A [2]])).
    exists [dead_device 0x0099; constant_device 0x0018 [1]], [].
    split; [reflexivity |]. split; [split; reflexivity |].
    repeat constructor; intros [_ H]; discriminate H.
  - apply (proj1 (proj2 (find_first_match
                    [dead_device 0x0099; constant_device 0x0018 [1];
                     constant_device 0x0018 [3]]))).
    + intros x Hx.
      repeat (apply elem_of_cons in Hx as [-> | Hx]);
        [intros [_ H]; discriminate H .. | inversion Hx].
    + exists [dead_device 0x0099], [constant_device 0x0018 [3]].
      split; [reflexivity |]. split; [split; reflexivity |].
      repeat constructor; intros [_ H]; discriminate H.
  - apply (proj1 (proj2 (proj2 (find_first_match
                    [UsbDevice 0x1D6B 0x0002 [] (fun _ _ => None);
                     dead_device 0x0099])))).
    + intros x Hx.
      repeat (apply elem_of_cons in Hx as [-> | Hx]);
        [intros [_ H]; discriminate H .. | inversion Hx].
    + intros x Hx.
      repeat (apply elem_of_cons in Hx as [-> | Hx]);
        [intros [_ H]; discriminate H .. | inversion Hx].
    + exists [UsbDevice 0x1D6B 0x0002 [] (fun _ _ => None)], [].
      split; [reflexivity |]. split; [reflexivity |].
      repeat constructor; intros H; discriminate H.
  - apply (proj2 (proj2 (proj2 (find_first_match
                    [UsbDevice 0x1D6B 0x0002 [] (fun _ _ => None)])))).
    intros x Hx. apply list_elem_of_singleton in Hx. rewrite Hx.
    intros H; discriminate H.
Defined.



(** X3: a precise match is never passed over for a vendor-only one: if
    some connected device has one of the two known product ids, so has the
    device [find] returns. *)
Lemma find_prefers_precise bus d :
  d ∈ bus -> idVendor d = 0x2886 ->
  idProduct d = 0x001A \/ idProduct d = 0x0018 ->
  exists s, find bus = Some s /\ idVendor (dev s) = 0x2886 /\
            (idProduct (dev s) = 0x001A \/ idProduct (dev s) = 0x0018).
Proof.
  intros Hin Hv Hp. unfold find, vids_pids. cbn [find_loop].
  destruct (usb_core_find 10374 (Some 26) bus) as [d1 |] eqn:E1.
  { apply usb_core_find_Some in E1 as (_ & ? & ?). eauto. }
  destruct (usb_core_find 10374 (Some 24) bus) as [d2 |] eqn:E2.
  { apply usb_core_find_Some in E2 as (_ & ? & ?). eauto. }
  destruct Hp as [Hp | Hp].
  - destruct (usb_core_find_None _ _ _ E1 d Hin Hv Hp).
  - destruct (usb_core_find_None _ _ _ E2 d Hin Hv Hp).
Qed.

Lemma find_prefers_precise_witness :
  exists s,
    find [constant_device 0x0099 []; constant_device 0x0018 [1]] = Some s /\
    idVendor (dev s) = 0x2886 /\
    (idProduct (dev s) = 0x001A \/ idProduct (dev s) = 0x0018).
Proof.
  apply (find_prefers_precise [constant_device 0x0099 []; constant_device 0x0018 [1]]
           (constant_device 0x0018 [1])).
  - apply list_elem_of_further, list_elem_of_here.
  - reflexivity.
  - right. reflexivity.
Defined.

(** X2: [find] returns [None] exactly when no connected device carries the
    vendor id [0x2886]. *)
Lemma find_None_iff bus :
  find bus = None <-> forall d, d ∈ bus -> idVendor d <> 0x2886.
Proof.
  unfold find, vids_pids. cbn [find_loop]. split.
  - destruct (usb_core_find 10374 (Some 26) bus); [discriminate |].
    destruct (usb_core_find 10374 (Some 24) bus); [discriminate |].
    destruct (usb_core_find 10374 None bus) eqn:E; [discriminate |].
    intros _ d Hin Hv. exact (usb_core_find_None _ _ _ E d Hin Hv).
  - intros Hno.
    assert (Hnone : forall pid, usb_core_find 10374 pid bus = None).
    { intros pid. destruct (usb_core_find 10374 pid bus) as [d |] eqn:E; [| reflexivity].
      apply usb_core_find_Some in E as (Hin & Hv & _).
      destruct (Hno d Hin Hv). }
    rewrite !Hnone. reflexivity.
Qed.

Lemma find_None_iff_witness :
  find [UsbDevice 0x1D6B 0x0002 [] (fun _ _ => None)] = None.
Proof.
  apply (proj2 (find_None_iff [UsbDevice 0x1D6B 0x0002 [] (fun _ _ => None)])).
  intros d Hin. apply list_elem_of_singleton in Hin. rewrite Hin. discriminate.
Defined.

Example find_second_candidate :
  find [UsbDevice 0x1D6B 0x0002 [] (fun _ _ => None);
        constant_device 0x0099 [];
        constant_device 0x0018 [1]] = Some (Session (constant_device 0x0018 [1])).
Proof. reflexivity. Qed.

Example find_vendor_fallback :
  find [UsbDevice 0x1D6B 0x0002 [] (fun _ _ => None);
        constant_device 0x0099 []] = Some (Session (constant_device 0x0099 [])).
Proof. reflexivity. Qed.

(** ** DOA_VALUE *)

(** C8: when the device answers [00 2C 01 01], [read("DOA_VALUE")] returns
    the list [[0, 44, 1, 1]] unchanged, and the polling loop rebuilds the
    angle [byte[1] | (byte[2] << 8) = 300] from it. *)
Theorem read_doa_value_300 self :
  firmware (dev self) (transfers (dev self))
    (read_request (Entry 20 18 4 "ro" "uint16")) = Some [0x00; 0x2C; 0x01; 0x01] ->
  fst (read self "DOA_VALUE") = Return (PyList [PyInt 0; PyInt 44; PyInt 1; PyInt 1]) /\
  (doa <- fst (read self "DOA_VALUE") ;; doa_fields doa) =
    Return (Some (DoaLine (PyInt 0) (Some (PyInt 1)) (Some (PyInt 300)))) /\
  Z.lor 44 (Z.shiftl 1 8) = 300.
Proof.
  intros Hfw.
  rewrite (read_registered self "DOA_VALUE" (Entry 20 18 4 "ro" "uint16") eq_refl).
  rewrite Hfw. repeat split; reflexivity.
Qed.

Lemma read_doa_value_300_witness :
  fst (read (sample_session [0; 44; 1; 1]) "DOA_VALUE") =
    Return (PyList [PyInt 0; PyInt 44; PyInt 1; PyInt 1]) /\
  (doa <- fst (read (sample_session [0; 44; 1; 1]) "DOA_VALUE") ;; doa_fields doa) =
    Return (Some (DoaLine (PyInt 0) (Some (PyInt 1)) (Some (PyInt 300)))) /\
  Z.lor 44 (Z.shiftl 1 8) = 300.
Proof.
  apply (read_doa_value_300 (sample_session [0; 44; 1; 1])). reflexivity.
Defined.

(** C9: on a byte list of any length the DOA handling of the polling loop
    returns normally (no index is ever out of range).  An empty list skips
    the branch; otherwise the status is byte 0, the angle is
    [byte[1] | (byte[2] << 8)] from three bytes on, byte 1 alone for two
    bytes and absent for one, and the speech flag is byte 3 when there are
    more than three bytes and absent otherwise. *)
Theorem doa_fields_total (bytes : list Z) :
  doa_fields (PyList (map PyInt bytes)) =
    Return
      match bytes with
      | [] => None
      | [b0] => Some (DoaLine (PyInt b0) None None)
      | [b0; b1] => Some (DoaLine (PyInt b0) None (Some (PyInt b1)))
      | [b0; b1; b2] =>
          Some (DoaLine (PyInt b0) None (Some (PyInt (Z.lor b1 (Z.shiftl b2 8)))))
      | b0 :: b1 :: b2 :: b3 :: _ =>
          Some (DoaLine (PyInt b0) (Some (PyInt b3))
                  (Some (PyInt (Z.lor b1 (Z.shiftl b2 8)))))
      end.
Proof.
  destruct bytes as [| b0 [| b1 [| b2 [| b3 rest]]]]; try reflexivity.
  unfold doa_fields. cbn [truthy items map length Nat.eqb negb andb].
  replace (0 <? Z.of_nat (S (S (S (S (length (map PyInt rest))))))) with true
    by (symmetry; apply Z.ltb_lt; lia).
  replace (3 <=? Z.of_nat (S (S (S (S (length (map PyInt rest))))))) with true
    by (symmetry; apply Z.leb_le; lia).
  replace (3 <? Z.of_nat (S (S (S (S (length (map PyInt rest))))))) with true
    by (symmetry; apply Z.ltb_lt; lia).
  reflexivity.
Qed.

Lemma doa_fields_None : doa_fields PyNone = Return None.
Proof. reflexivity. Qed.

(** ** Slices and 4-byte items *)

Lemma py_slice_from_1 {A} (n : Z) (l : list A) :
  0 <= n -> py_slice 1 (n + 1) l = take (Z.to_nat n) (drop 1 l).
Proof.
  intros Hn. unfold py_slice, py_clamp.
  destruct (Z.ltb_spec 1 0) as [? | _]; [lia |].
  destruct (Z.ltb_spec (n + 1) 0) as [? | _]; [lia |].
  destruct l as [| a l]; [simpl; now rewrite !take_nil |].
  rewrite length_cons.
  replace (Z.to_nat (1 `min` Z.of_nat (S (length l)))) with 1%nat by lia.
  cbn [drop]. rewrite !drop_0.
  destruct (Z.le_gt_cases (Z.of_nat (length l)) n) as [Hle | Hgt].
  - rewrite (take_ge l (Z.to_nat n)) by lia. apply take_ge. lia.
  - f_equal. lia.
Qed.

Lemma chunks4_length n bs : length (chunks4 n bs) = n.
Proof. revert bs; induction n as [| n IH]; intros bs; simpl; [| rewrite IH]; reflexivity. Qed.

Lemma chunks4_lookup n bs i :
  (i < n)%nat -> chunks4 n bs !! i = Some (take 4 (drop (4 * i) bs)).
Proof.
  revert bs i; induction n as [| n IH]; intros bs i Hi; [lia |].
  destruct i as [| i]; simpl; [reflexivity |].
  rewrite IH by lia. rewrite drop_drop. do 3 f_equal. lia.
Qed.

Lemma struct_unpack_floats_ok n buf :
  length buf = (4 * n)%nat ->
  struct_unpack_floats n buf =
    Return (map (fun c => PyFloat (unpack_f c)) (chunks4 n buf)).
Proof.
  intros H. unfold struct_unpack_floats.
  rewrite (proj2 (Nat.eqb_eq _ _) H). reflexivity.
Qed.

Lemma struct_unpack_floats_error n buf :
  length buf <> (4 * n)%nat ->
  struct_unpack_floats n buf = Raise StructError.
Proof.
  intros H. unfold struct_unpack_floats.
  rewrite (proj2 (Nat.eqb_neq _ _) H). reflexivity.
Qed.

(** ** Decoding *)

Lemma decode_radians data n response :
  p_type data = "radians" ->
  0 <= n ->
  decode_response data (n + 1) response =
    (l <- struct_unpack_floats (Z.to_nat (n ÷ 4))
            (take (Z.to_nat n) (drop 1 response)) ;;
     Return (PyTuple l)).
Proof.
  intros Ht Hn. unfold decode_response. rewrite Ht. cbn [String.eqb].
  change ("radians" =? "uint8")%string with false.
  change ("radians" =? "radians")%string with true. cbv iota.
  rewrite py_slice_from_1 by exact Hn.
  replace (n + 1 - 1) with n by lia. reflexivity.
Qed.

(** Every type other than [radians] is returned as the raw byte list,
    [float] included. *)
Lemma decode_raw data length response :
  p_type data <> "radians" ->
  decode_response data length response = Return (PyList (map PyInt response)).
Proof.
  intros Ht. unfold decode_response.
  destruct (String.eqb_spec (p_type data) "radians") as [E | _]; [contradiction |].
  destruct (String.eqb (p_type data) "uint8"), (String.eqb (p_type data) "uint16");
    reflexivity.
Qed.

(** A full response to a register whose length is a multiple of four
    decodes into [length / 4] values. *)
Lemma decode_radians_full data k response :
  p_type data = "radians" ->
  p_length data = 4 * Z.of_nat k ->
  (Z.to_nat (p_length data) + 1 <= length response)%nat ->
  decode_response data (p_length data + 1) response =
    Return (PyTuple (map (fun c => PyFloat (unpack_f c))
                       (chunks4 k (take (4 * k) (drop 1 response))))).
Proof.
  intros Ht Hk Hlen.
  rewrite decode_radians by (try exact Ht; lia).
  replace (Z.to_nat (p_length data ÷ 4)) with k
    by (rewrite Hk, Z.mul_comm, Z.quot_mul by lia; lia).
  replace (Z.to_nat (p_length data)) with (4 * k)%nat in * by lia.
  rewrite struct_unpack_floats_ok; [reflexivity |].
  rewrite length_take, length_drop. lia.
Qed.

(** A short response to a register whose length is a positive multiple of
    four cannot be unpacked. *)
Lemma decode_radians_short data k response :
  p_type data = "radians" ->
  p_length data = 4 * Z.of_nat k ->
  (0 < k)%nat ->
  (length response < Z.to_nat (p_length data) + 1)%nat ->
  decode_response data (p_length data + 1) response = Raise StructError.
Proof.
  intros Ht Hk Hpos Hlen.
  rewrite decode_radians by (try exact Ht; lia).
  replace (Z.to_nat (p_length data ÷ 4)) with k
    by (rewrite Hk, Z.mul_comm, Z.quot_mul by lia; lia).
  rewrite struct_unpack_floats_error; [reflexivity |].
  rewrite length_take, length_drop. lia.
Qed.

(** X18: when the length of a radians register is not a multiple of four,
    a full response cannot be unpacked either: the slice holds [length]
    bytes and the format asks for [4 * (length / 4)], so decoding raises
    [struct.error]. *)
Lemma decode_radians_misaligned data response :
  p_type data = "radians" ->
  0 <= p_length data ->
  p_length data mod 4 <> 0 ->
  p_length data + 1 <= Z.of_nat (length response) ->
  decode_response data (p_length data + 1) response = Raise StructError.
Proof.
  intros Ht Hn Hmod Hlen.
  rewrite decode_radians by assumption.
  rewrite struct_unpack_floats_error; [reflexivity |].
  rewrite length_take, length_drop, Z.quot_div_nonneg by lia.
  pose proof (Z.div_mod (p_length data) 4 ltac:(lia)) as Hdm.
  assert (0 <= p_length data / 4) by (apply Z.div_pos; lia).
  lia.
Qed.

Lemma decode_radians_misaligned_witness :
  decode_response (Entry 33 75 6 "ro" "radians") (6 + 1) [0; 1; 2; 3; 4; 5; 6] =
    Raise StructError.
Proof.
  apply (decode_radians_misaligned (Entry 33 75 6 "ro" "radians") [0; 1; 2; 3; 4; 5; 6]).
  - reflexivity.
  - cbn. lia.
  - vm_compute. discriminate.
  - cbn. lia.
Defined.

Lemma take_drop_take4 {A} (i k : nat) (l : list A) :
  (i < k)%nat ->
  take 4 (drop (4 * i) (take (4 * k) l)) = take 4 (drop (4 * i) l).
Proof.
  intros Hi.
  replace (4 * k)%nat with (4 * i + (4 * k - 4 * i))%nat by lia.
  rewrite <- take_drop_commute, take_take. f_equal. lia.
Qed.

(** ** Reading a radians register *)

(** C1, as stated, fails: [AEC_AZIMUTH_VALUES] is registered with length
    16; [read] asks for 17 bytes, and from a full 17-byte answer it returns
    a tuple of 4 floats, not 16. *)
Lemma read_azimuth_16_floats_counterexample :
  PARAMETERS !! "AEC_AZIMUTH_VALUES" = Some (Entry 33 75 16 "ro" "radians") /\
  length azimuth_answer = 17%nat /\
  exists l,
    fst (read (sample_session azimuth_answer) "AEC_AZIMUTH_VALUES") =
      Return (PyTuple l) /\
    length l = 4%nat /\ length l <> 16%nat.
Proof.
  split; [reflexivity |]. split; [reflexivity |].
  eexists. split; [vm_compute; reflexivity |].
  split; [reflexivity | discriminate].
Qed.

(** C1, amended: for every registered radians register [read] asks for
    [length + 1] bytes and, from an answer of at least that many bytes,
    returns [length / 4] floats: value [i] is the little-endian single held
    in the four bytes that follow byte [4 * i] (the header byte is byte 0).
    For [AEC_AZIMUTH_VALUES] that is 4 floats out of a 17-byte answer. *)
Theorem read_radians_values self name data response :
  PARAMETERS !! name = Some data ->
  p_type data = "radians" ->
  firmware (dev self) (transfers (dev self)) (read_request data) = Some response ->
  p_length data + 1 <= Z.of_nat (length response) ->
  (exists rq,
     transfers (dev (snd (read self name))) = transfers (dev self) ++ [rq] /\
     wData rq = WLength (p_length data + 1)) /\
  exists l,
    fst (read self name) = Return (PyTuple l) /\
    Z.of_nat (length l) = p_length data ÷ 4 /\
    forall i, (i < length l)%nat ->
      l !! i = Some (PyFloat (unpack_f (take 4 (drop (1 + 4 * i) response)))).
Proof.
  intros H Ht Hfw Hlen.
  rewrite (read_registered self name data H), Hfw. cbn [fst snd dev].
  split; [exists (read_request data); split; reflexivity |].
  destruct (registered_radians name data H Ht) as [-> ->].
  rewrite (decode_radians_full _ 4 response) by (simpl in *; try reflexivity; lia).
  eexists. split; [reflexivity |].
  rewrite length_map, chunks4_length. split; [reflexivity |].
  intros i Hi.
  rewrite list_lookup_fmap, chunks4_lookup by exact Hi. cbn [fmap option_fmap option_map].
  rewrite take_drop_take4, drop_drop by exact Hi. reflexivity.
Qed.

Lemma read_radians_values_witness :
  (exists rq,
     transfers (dev (snd (read (sample_session azimuth_answer) "AEC_AZIMUTH_VALUES"))) =
       transfers (dev (sample_session azimuth_answer)) ++ [rq] /\
     wData rq = WLength (16 + 1)) /\
  exists l,
    fst (read (sample_session azimuth_answer) "AEC_AZIMUTH_VALUES") =
      Return (PyTuple l) /\
    Z.of_nat (length l) = 16 ÷ 4 /\
    forall i, (i < length l)%nat ->
      l !! i = Some (PyFloat (unpack_f (take 4 (drop (1 + 4 * i) azimuth_answer)))).
Proof.
  apply (read_radians_values (sample_session azimuth_answer) "AEC_AZIMUTH_VALUES"
           (Entry 33 75 16 "ro" "radians") azimuth_answer).
  - reflexivity.
  - reflexivity.
  - reflexivity.
  - simpl. lia.
Defined.

(** C10: for every registered radians register, an answer of fewer than
    [length + 1] bytes makes [read] raise [struct.error]; it never returns a
    shorter tuple.  For the registered integer types ([uint8], [uint16])
    [read] returns the answered bytes unchanged whatever their number. *)
Theorem read_short_response self name data response :
  PARAMETERS !! name = Some data ->
  firmware (dev self) (transfers (dev self)) (read_request data) = Some response ->
  (p_type data = "radians" ->
   Z.of_nat (length response) < p_length data + 1 ->
   fst (read self name) = Raise StructError) /\
  (p_type data = "uint8" \/ p_type data = "uint16" ->
   fst (read self name) = Return (PyList (map PyInt response))).
Proof.
  intros H Hfw.
  rewrite (read_registered self name data H), Hfw. cbn [fst].
  split.
  - intros Ht Hlen.
    destruct (registered_radians name data H Ht) as [-> ->].
    apply (decode_radians_short _ 4 response); simpl in *; try reflexivity; lia.
  - intros Ht. apply decode_raw.
    destruct Ht as [Ht | Ht]; rewrite Ht; discriminate.
Qed.

Lemma read_short_response_witness :
  fst (read (sample_session [0; 219; 15; 201; 63]) "AEC_AZIMUTH_VALUES") =
    Raise StructError /\
  fst (read (sample_session [0; 44]) "DOA_VALUE") =
    Return (PyList (map PyInt [0; 44])).
Proof.
  split.
  - apply (proj1 (read_short_response (sample_session [0; 219; 15; 201; 63])
                    "AEC_AZIMUTH_VALUES" (Entry 33 75 16 "ro" "radians")
                    [0; 219; 15; 201; 63] eq_refl eq_refl)).
    + reflexivity.
    + simpl. lia.
  - apply (proj2 (read_short_response (sample_session [0; 44])
                    "DOA_VALUE" (Entry 20 18 4 "ro" "uint16")
                    [0; 44] eq_refl eq_refl)).
    right. reflexivity.
Defined.

(** ** Rounding to a binary floating-point format

    [binary_round] always produces a value of the format it rounds to: the
    mantissa has at most [prec] digits and sits at the exponent the format
    prescribes for it. *)

Section Rounding.
Variables prec emax : Z.
Hypothesis Hprec : 0 < prec.

Local Abbreviation fexp := (fexp prec emax).
Local Abbreviation emin := (emin prec emax).

Lemma digits2_pos_log2 (m : positive) :
  Z.pos (digits2_pos m) = Z.log2 (Z.pos m) + 1.
Proof.
  induction m as [m IH | m IH |]; cbn [digits2_pos]; [| | reflexivity].
  - rewrite Pos2Z.inj_succ, IH, Pos2Z.inj_xI, Z.log2_succ_double by lia. lia.
  - rewrite Pos2Z.inj_succ, IH, Pos2Z.inj_xO, Z.log2_double by lia. lia.
Qed.

Lemma Zdigits2_log2 (m : Z) : 0 < m -> Zdigits2 m = Z.log2 m + 1.
Proof. destruct m; try lia. intros _. apply digits2_pos_log2. Qed.

Lemma Zdigits2_bounds (m : Z) :
  0 < m -> 2 ^ (Zdigits2 m - 1) <= m < 2 ^ Zdigits2 m.
Proof.
  intros Hm. rewrite Zdigits2_log2 by exact Hm.
  replace (Z.log2 m + 1 - 1) with (Z.log2 m) by lia.
  exact (Z.log2_spec m Hm).
Qed.

Lemma Zdigits2_unique (m d : Z) :
  0 < d -> 2 ^ (d - 1) <= m < 2 ^ d -> Zdigits2 m = d.
Proof.
  intros Hd Hm.
  assert (0 < m) by (pose proof (Z.pow_pos_nonneg 2 (d - 1)); lia).
  rewrite Zdigits2_log2 by assumption.
  rewrite (Z.log2_unique m (d - 1)); [lia | lia |].
  replace (Z.succ (d - 1)) with d by lia. exact Hm.
Qed.

Lemma shr_1_m mrs : 0 <= shr_m mrs -> shr_m (shr_1 mrs) = shr_m mrs / 2.
Proof.
  destruct mrs as [m r s]. cbn [shr_m]. intros Hm.
  rewrite <- Z.div2_div.
  destruct m as [| [p | p |] | p]; try reflexivity; lia.
Qed.

Lemma iter_pos_shr_1_m p : forall mrs,
  0 <= shr_m mrs ->
  shr_m (SpecFloat.iter_pos shr_1 p mrs) = shr_m mrs / 2 ^ Z.pos p.
Proof.
  induction p as [p IH | p IH |]; intros mrs Hm; cbn [SpecFloat.iter_pos].
  - assert (H1 : 0 <= shr_m (shr_1 mrs))
      by (rewrite shr_1_m by exact Hm; apply Z.div_pos; lia).
    assert (H2 : 0 <= shr_m (SpecFloat.iter_pos shr_1 p (shr_1 mrs)))
      by (rewrite IH by exact H1; apply Z.div_pos; [exact H1 | lia]).
    rewrite IH, IH, shr_1_m by assumption.
    rewrite !Z.div_div by lia.
    f_equal. rewrite (Pos2Z.inj_xI p).
    replace (2 * Z.pos p + 1) with (Z.pos p + Z.pos p + 1) by lia.
    rewrite !Z.pow_add_r by lia. ring.
  - assert (H2 : 0 <= shr_m (SpecFloat.iter_pos shr_1 p mrs))
      by (rewrite IH by exact Hm; apply Z.div_pos; [exact Hm | lia]).
    rewrite IH, IH by assumption.
    rewrite Z.div_div by lia.
    f_equal. rewrite (Pos2Z.inj_xO p).
    replace (2 * Z.pos p) with (Z.pos p + Z.pos p) by lia.
    rewrite Z.pow_add_r by lia. ring.
  - rewrite shr_1_m by exact Hm. reflexivity.
Qed.

Lemma shr_spec mrs e n :
  0 <= shr_m mrs ->
  shr_m (fst (shr mrs e n)) = shr_m mrs / 2 ^ Z.max n 0 /\
  snd (shr mrs e n) = e + Z.max n 0.
Proof.
  intros Hm. destruct n as [| p | p]; cbn [shr fst snd].
  - rewrite Z.div_1_r. split; [reflexivity | lia].
  - rewrite iter_pos_shr_1_m by exact Hm.
    replace (Z.max (Z.pos p) 0) with (Z.pos p) by lia. split; reflexivity.
  - replace (Z.max (Z.neg p) 0) with 0 by lia.
    rewrite Z.div_1_r. split; [reflexivity | lia].
Qed.

Lemma shr_record_of_loc_m m l : shr_m (shr_record_of_loc m l) = m.
Proof. destruct l as [| []]; reflexivity. Qed.

Lemma shr_fexp_spec m e l :
  0 <= m ->
  shr_m (fst (shr_fexp prec emax m e l)) =
    m / 2 ^ Z.max (fexp (Zdigits2 m + e) - e) 0 /\
  snd (shr_fexp prec emax m e l) = e + Z.max (fexp (Zdigits2 m + e) - e) 0.
Proof.
  intros Hm. unfold shr_fexp.
  pose proof (shr_spec (shr_record_of_loc m l) e (fexp (Zdigits2 m + e) - e)) as H.
  rewrite shr_record_of_loc_m in H. exact (H Hm).
Qed.

Lemma round_nearest_even_range m l :
  round_nearest_even m l = m \/ round_nearest_even m l = m + 1.
Proof.
  destruct l as [| []]; cbn [round_nearest_even]; auto.
  destruct (Z.even m); auto.
Qed.

Lemma Zdigits2_pos (m : Z) : 0 < m -> 0 < Zdigits2 m.
Proof.
  intros Hm. rewrite Zdigits2_log2 by exact Hm.
  pose proof (Z.log2_nonneg m). lia.
Qed.

Lemma Zdigits2_le (m d : Z) : 0 < m -> 0 <= d -> m <= 2 ^ d -> Zdigits2 m <= d + 1.
Proof.
  intros Hm Hd Hle. rewrite Zdigits2_log2 by exact Hm.
  pose proof (Z.log2_le_mono m (2 ^ d) Hle) as H.
  rewrite Z.log2_pow2 in H by exact Hd. lia.
Qed.

(** Shifting to the format's exponent, rounding the last place and
    shifting once more leaves a mantissa that fits the format. *)
Lemma round_canonical (mx ex m1 : Z) :
  0 < mx ->
  ex <= fexp (Zdigits2 mx + ex) ->
  let n := fexp (Zdigits2 mx + ex) - ex in
  let e' := ex + n in
  let n2 := Z.max (fexp (Zdigits2 m1 + e') - e') 0 in
  m1 = mx / 2 ^ n \/ m1 = mx / 2 ^ n + 1 ->
  0 < m1 / 2 ^ n2 ->
  fexp (Zdigits2 (m1 / 2 ^ n2) + (e' + n2)) = e' + n2.
Proof.
  intros Hmx Hex n e' n2 Hm1 Hpos.
  pose proof (Zdigits2_bounds mx Hmx) as [Hlo Hhi].
  pose proof (Zdigits2_pos mx Hmx) as Hdx.
  set (dx := Zdigits2 mx) in *.
  assert (Hn : 0 <= n) by (unfold n; lia).
  assert (H2n : 0 < 2 ^ n) by (apply Z.pow_pos_nonneg; lia).
  assert (Hq0 : 0 <= mx / 2 ^ n) by (apply Z.div_pos; lia).
  destruct (Z.le_gt_cases emin (dx + ex - prec)) as [Hnorm | Hsub].
  - (* normal range *)
    assert (He' : e' = dx + ex - prec) by (unfold e', n, SpecFloat.fexp; lia).
    assert (Hndx : n = dx - prec) by lia.
    assert (Hqhi : mx / 2 ^ n < 2 ^ prec).
    { apply Z.div_lt_upper_bound; [exact H2n |].
      rewrite <- Z.pow_add_r by lia. replace (n + prec) with dx by lia. exact Hhi. }
    assert (Hqlo : 2 ^ (prec - 1) <= mx / 2 ^ n).
    { apply Z.div_le_lower_bound; [exact H2n |].
      rewrite <- Z.pow_add_r by lia. replace (n + (prec - 1)) with (dx - 1) by lia.
      exact Hlo. }
    destruct (Z.lt_ge_cases m1 (2 ^ prec)) as [Hlt | Hge].
    + assert (Hd1 : Zdigits2 m1 = prec) by (apply Zdigits2_unique; lia).
      assert (Hn2 : n2 = 0) by (unfold n2; rewrite Hd1; unfold SpecFloat.fexp; lia).
      rewrite Hn2, Z.pow_0_r, Z.div_1_r, Hd1. unfold SpecFloat.fexp. lia.
    + assert (Hm1' : m1 = 2 ^ prec) by lia.
      assert (Hd1 : Zdigits2 m1 = prec + 1).
      { apply Zdigits2_unique; [lia |]. rewrite Hm1'.
        replace (prec + 1 - 1) with prec by lia.
        split; [lia |]. apply Z.pow_lt_mono_r; lia. }
      assert (Hn2 : n2 = 1) by (unfold n2; rewrite Hd1; unfold SpecFloat.fexp; lia).
      assert (Hhalf : m1 / 2 ^ n2 = 2 ^ (prec - 1)).
      { rewrite Hn2, Hm1'. change (2 ^ 1) with 2.
        replace prec with (Z.succ (prec - 1)) at 1 by lia.
        rewrite Z.pow_succ_r by lia.
        rewrite Z.mul_comm, Z.div_mul by lia. reflexivity. }
      rewrite Hhalf.
      rewrite (Zdigits2_unique (2 ^ (prec - 1)) prec); [| lia |].
      * rewrite Hn2. unfold SpecFloat.fexp. lia.
      * split; [lia |]. apply Z.pow_lt_mono_r; lia.
  - (* subnormal range *)
    assert (He' : e' = emin) by (unfold e', n, SpecFloat.fexp; lia).
    assert (Hqhi : mx / 2 ^ n < 2 ^ (prec - 1)).
    { apply Z.div_lt_upper_bound; [exact H2n |].
      rewrite <- Z.pow_add_r by lia.
      apply Z.lt_le_trans with (1 := Hhi).
      apply Z.pow_le_mono_r; lia. }
    assert (Hm1hi : m1 <= 2 ^ (prec - 1)) by lia.
    assert (Hm1pos : 0 < m1).
    { destruct (Z.lt_ge_cases 0 m1) as [? | Hz]; [assumption |].
      assert (m1 = 0) by lia. subst m1.
      rewrite Z.div_0_l in Hpos; [lia |].
      apply Z.pow_nonzero; unfold n2; lia. }
    pose proof (Zdigits2_pos m1 Hm1pos) as Hd1lo.
    pose proof (Zdigits2_le m1 (prec - 1) Hm1pos ltac:(lia) Hm1hi) as Hd1hi.
    assert (Hn2 : n2 = 0) by (unfold n2; unfold SpecFloat.fexp; lia).
    rewrite Hn2, Z.pow_0_r, Z.div_1_r. unfold SpecFloat.fexp. lia.
Qed.

Lemma binary_round_aux_valid s mx ex :
  0 < mx ->
  ex <= fexp (Zdigits2 mx + ex) ->
  valid_binary prec emax (binary_round_aux prec emax s mx ex loc_Exact) = true.
Proof.
  intros Hmx Hex. unfold binary_round_aux.
  pose proof (shr_fexp_spec mx ex loc_Exact ltac:(lia)) as [Hq He'].
  destruct (shr_fexp prec emax mx ex loc_Exact) as [mrs' e'].
  cbn [fst snd] in Hq, He'.
  replace (Z.max (fexp (Zdigits2 mx + ex) - ex) 0)
    with (fexp (Zdigits2 mx + ex) - ex) in Hq, He' by lia.
  set (m1 := round_nearest_even (shr_m mrs') (loc_of_shr_record mrs')).
  assert (Hm1 : m1 = shr_m mrs' \/ m1 = shr_m mrs' + 1)
    by apply round_nearest_even_range.
  assert (Hq0 : 0 <= shr_m mrs').
  { rewrite Hq. apply Z.div_pos; [lia |]. apply Z.pow_pos_nonneg; lia. }
  pose proof (shr_fexp_spec m1 e' loc_Exact ltac:(lia)) as [Hm2 He''].
  destruct (shr_fexp prec emax m1 e' loc_Exact) as [mrs'' e''].
  cbn [fst snd] in Hm2, He''.
  destruct (shr_m mrs'') as [| m2 | m2] eqn:Em2; [reflexivity | | reflexivity].
  destruct (e'' <=? emax - prec) eqn:Ele; [| reflexivity].
  cbn [valid_binary]. unfold bounded, canonical_mantissa.
  rewrite Ele, andb_true_r. apply Z.eqb_eq.
  change (Z.pos (digits2_pos m2)) with (Zdigits2 (Z.pos m2)).
  rewrite Hm2, He'', He'. rewrite He' in Hm2.
  apply round_canonical; try assumption.
  - rewrite <- Hq. exact Hm1.
  - rewrite <- Hm2. lia.
Qed.

Lemma pos_iter_xO (m d : positive) :
  Z.pos (Pos.iter xO m d) = Z.pos m * 2 ^ Z.pos d.
Proof.
  induction d as [| d IH] using Pos.peano_ind.
  - cbn [Pos.iter]. rewrite (Pos2Z.inj_xO m). change (2 ^ 1) with 2. lia.
  - rewrite Pos.iter_succ, (Pos2Z.inj_xO (Pos.iter xO m d)), IH, Pos2Z.inj_succ.
    rewrite Z.pow_succ_r by lia. ring.
Qed.

Lemma shl_align_spec (mx : positive) (ex ex' : Z) :
  let '(mz, ez) := shl_align mx ex ex' in
  Zdigits2 (Z.pos mz) + ez = Zdigits2 (Z.pos mx) + ex /\ ez <= ex'.
Proof.
  unfold shl_align. destruct (ex' - ex) as [| d | d] eqn:E.
  - split; [reflexivity | lia].
  - split; [reflexivity | lia].
  - split; [| lia].
    rewrite !Zdigits2_log2 by lia.
    rewrite pos_iter_xO, Z.log2_mul_pow2 by lia. lia.
Qed.

Lemma binary_round_valid s m e :
  valid_binary prec emax (binary_round prec emax s m e) = true.
Proof.
  unfold binary_round.
  pose proof (shl_align_spec m e (fexp (Z.pos (digits2_pos m) + e))) as H.
  destruct (shl_align m e (fexp (Z.pos (digits2_pos m) + e))) as [mz ez].
  destruct H as [Hd Hez].
  change (Z.pos (digits2_pos m)) with (Zdigits2 (Z.pos m)) in Hez.
  apply binary_round_aux_valid; [lia |].
  rewrite Hd. exact Hez.
Qed.
End Rounding.

(** ** Single-precision bit patterns *)

Lemma le_split_length n w : length (le_split n w) = n.
Proof. revert w; induction n as [| n IH]; intros w; simpl; [| rewrite IH]; reflexivity. Qed.

Lemma le_combine_split n w :
  0 <= w < 256 ^ Z.of_nat n -> le_combine (le_split n w) = w.
Proof.
  revert w; induction n as [| n IH]; intros w Hw.
  - simpl in *. lia.
  - cbn [le_split le_combine]. rewrite IH.
    + pose proof (Z.div_mod w 256). lia.
    + rewrite Nat2Z.inj_succ, Z.pow_succ_r in Hw by lia.
      split; [apply Z.div_pos; lia | apply Z.div_lt_upper_bound; lia].
Qed.

Lemma join_bits_fields s e m :
  0 <= e < 256 -> 0 <= m < 2 ^ 23 ->
  0 <= join_bits s e m < 2 ^ 32 /\
  Z.testbit (join_bits s e m) 31 = s /\
  (join_bits s e m / 2 ^ 23) mod 256 = e /\
  join_bits s e m mod 2 ^ 23 = m.
Proof.
  intros He Hm. unfold join_bits.
  change (2 ^ 23) with 8388608 in *. change (2 ^ 31) with 2147483648.
  change (2 ^ 32) with 4294967296.
  assert (Hbit : Z.b2z (Z.testbit ((if s then 2147483648 else 0) + e * 8388608 + m) 31) =
                 Z.b2z s).
  { rewrite Z.testbit_spec' by lia. change (2 ^ 31) with 2147483648.
    destruct s; cbn [Z.b2z]; Z.div_mod_to_equations; lia. }
  repeat split.
  - destruct s; lia.
  - destruct s; lia.
  - destruct (Z.testbit _ 31), s; cbn [Z.b2z] in Hbit; congruence.
  - destruct s; Z.div_mod_to_equations; lia.
  - destruct s; Z.div_mod_to_equations; lia.
Qed.

Lemma single_finite_cases (m : positive) (e : Z) :
  bounded f32_prec f32_emax m e = true ->
  (Z.pos m < 2 ^ 23 /\ e = -149) \/
  (2 ^ 23 <= Z.pos m < 2 ^ 24 /\ -149 <= e <= 104).
Proof.
  unfold bounded, canonical_mantissa, SpecFloat.fexp, SpecFloat.emin, f32_prec, f32_emax.
  intros H. apply andb_prop in H as [Hc He].
  apply Z.eqb_eq in Hc. apply Z.leb_le in He.
  change (Z.pos (digits2_pos m)) with (Zdigits2 (Z.pos m)) in Hc.
  pose proof (Zdigits2_bounds (Z.pos m) ltac:(lia)) as [Hlo Hhi].
  pose proof (Zdigits2_pos (Z.pos m) ltac:(lia)) as Hd.
  set (d := Zdigits2 (Z.pos m)) in *.
  destruct (Z.lt_ge_cases (Z.pos m) (2 ^ 23)) as [Hsub | Hnorm].
  - left. split; [exact Hsub |].
    assert (d - 1 < 23) by (apply (Z.pow_lt_mono_r_iff 2); lia).
    lia.
  - right.
    assert (23 < d) by (apply (Z.pow_lt_mono_r_iff 2); lia).
    assert (d = 24) by lia.
    replace d with 24 in Hhi by lia. lia.
Qed.

Lemma f32_bits_range r :
  valid_binary f32_prec f32_emax r = true -> 0 <= f32_bits r < 2 ^ 32.
Proof.
  destruct r as [s | s | | s m e]; cbn [valid_binary f32_bits]; intros Hv.
  - apply join_bits_fields; lia.
  - apply join_bits_fields; lia.
  - apply join_bits_fields; lia.
  - destruct (single_finite_cases m e Hv) as [[Hm He] | [Hm He]].
    + rewrite (proj2 (Z.ltb_lt _ _) Hm). apply join_bits_fields; lia.
    + rewrite (proj2 (Z.ltb_ge _ _) (proj1 Hm)).
      change (2 ^ 24) with (2 ^ 23 + 2 ^ 23) in Hm. apply join_bits_fields; lia.
Qed.

Lemma f32_value_bits r :
  valid_binary f32_prec f32_emax r = true -> f32_value (f32_bits r) = r.
Proof.
  destruct r as [s | s | | s m e]; cbn [valid_binary f32_bits]; intros Hv.
  - unfold f32_value.
    destruct (join_bits_fields s 0 0) as (_ & -> & -> & ->); [lia | lia |]. reflexivity.
  - unfold f32_value.
    destruct (join_bits_fields s 255 0) as (_ & -> & -> & ->); [lia | lia |]. reflexivity.
  - reflexivity.
  - destruct (single_finite_cases m e Hv) as [[Hm He] | [Hm He]].
    + rewrite (proj2 (Z.ltb_lt _ _) Hm). unfold f32_value.
      destruct (join_bits_fields s 0 (Z.pos m)) as (_ & -> & -> & ->); [lia | lia |].
      subst e. reflexivity.
    + rewrite (proj2 (Z.ltb_ge _ _) (proj1 Hm)). unfold f32_value.
      change (2 ^ 24) with (2 ^ 23 + 2 ^ 23) in Hm.
      destruct (join_bits_fields s (e + 150) (Z.pos m - 2 ^ 23)) as (_ & -> & -> & ->);
        [lia | lia |].
      destruct (Z.eqb_spec (e + 150) 0) as [? | _]; [lia |].
      destruct (Z.eqb_spec (e + 150) 255) as [? | _]; [lia |].
      replace (Z.pos m - 2 ^ 23 + 2 ^ 23) with (Z.pos m) by lia.
      replace (e + 150 - 150) with e by lia. reflexivity.
Qed.

(** Rounding to single precision always lands in the single format. *)
Lemma round_single_valid x :
  valid_binary f32_prec f32_emax (round_single x) = true.
Proof.
  destruct x as [s | s | | s m e]; cbn [round_single]; try reflexivity.
  apply binary_round_valid. unfold f32_prec. lia.
Qed.

(** Packing a double and unpacking the four bytes gives the double's
    single-precision rounding. *)
Lemma unpack_pack_f x bs :
  pack_f x = Return bs ->
  length bs = 4%nat /\ unpack_f bs = double_of_single (round_single x).
Proof.
  pose proof (round_single_valid x) as Hv.
  intros H.
  assert (Hbs : bs = le_split 4 (f32_bits (round_single x))).
  { unfold pack_f in H. congruence. }
  subst bs. split; [apply le_split_length |].
  unfold unpack_f. rewrite le_combine_split.
  - f_equal. apply f32_value_bits, Hv.
  - apply f32_bits_range, Hv.
Qed.

(** The packer does not check the range: a finite double beyond the
    single range (here 1e39) is packed as the bytes of +inf. *)
Lemma pack_f_beyond_single_range :
  pack_f (S754_finite false 6617444900424221 77) = Return [0; 0; 128; 127].
Proof. vm_compute. reflexivity. Qed.

(** ** The payload built by [write] *)

Lemma py_index_Return {A} (l : list A) (i : nat) (x : A) :
  py_index l i = Return x -> l !! i = Some x.
Proof. unfold py_index. destruct (l !! i); congruence. Qed.

Lemma pack_loop_seq pack data_list k : forall i payload out,
  pack_loop pack data_list (seq i k) payload = Return out ->
  exists packed,
    Forall2 (fun x bs => pack x = Return bs) (take k (drop i data_list)) packed /\
    out = payload ++ concat packed.
Proof.
  induction k as [| k IH]; intros i payload out H.
  - cbn in H. injection H as <-. exists []. split; [constructor |].
    cbn. now rewrite app_nil_r.
  - cbn [seq pack_loop] in H.
    destruct (py_index data_list i) as [x | e] eqn:Ex; [| discriminate].
    cbn [bind] in H.
    destruct (pack x) as [bs | e] eqn:Eb; [| discriminate].
    cbn [bind] in H.
    destruct (IH _ _ _ H) as (packed & Hall & ->).
    exists (bs :: packed). split.
    + rewrite (drop_S _ _ _ (py_index_Return _ _ _ Ex)). cbn [take].
      constructor; assumption.
    + cbn [concat]. now rewrite app_assoc.
Qed.

Lemma in_types_radians : in_types "radians" ["float"; "radians"] = true.
Proof. reflexivity. Qed.

Lemma encode_radians data (v : list spec_float) payload :
  p_type data = "radians" ->
  Z.of_nat (length v) = p_length data ->
  encode_payload data (map PyFloat v) = Return payload ->
  exists packed,
    Forall2 (fun f bs => pack_f f = Return bs) v packed /\
    payload = concat packed.
Proof.
  intros Ht Hlen H. unfold encode_payload in H.
  rewrite Ht, in_types_radians in H. unfold py_range in H.
  apply pack_loop_seq in H as (packed & Hall & ->).
  exists packed. split; [| reflexivity].
  rewrite drop_0, take_ge in Hall by (rewrite length_map; lia).
  apply Forall2_fmap_l in Hall. exact Hall.
Qed.

Lemma chunks4_take k (l : list Z) : chunks4 k (take (4 * k) l) = chunks4 k l.
Proof.
  revert l; induction k as [| k IH]; intros l; [reflexivity |].
  cbn [chunks4]. rewrite take_take.
  replace (4 `min` (4 * S k))%nat with 4%nat by lia. f_equal.
  replace (4 * S k)%nat with (4 + 4 * k)%nat by lia.
  rewrite <- take_drop_commute. apply IH.
Qed.

Lemma chunks4_concat (packed : list (list Z)) :
  Forall (fun bs => length bs = 4%nat) packed ->
  forall k, (k <= length packed)%nat -> chunks4 k (concat packed) = take k packed.
Proof.
  induction 1 as [| bs packed Hbs _ IH]; intros k Hk.
  - cbn in Hk. replace k with 0%nat by lia. reflexivity.
  - destruct k as [| k]; [reflexivity |].
    cbn [chunks4 concat take].
    rewrite take_app_length', drop_app_length' by (symmetry; exact Hbs).
    f_equal. apply IH. cbn in Hk. lia.
Qed.

Lemma concat_length4 (packed : list (list Z)) :
  Forall (fun bs => length bs = 4%nat) packed ->
  length (concat packed) = (4 * length packed)%nat.
Proof.
  induction 1 as [| bs packed Hbs _ IH]; [reflexivity |].
  cbn [concat]. rewrite length_app, IH, Hbs. cbn [length]. lia.
Qed.

Lemma unpack_packed (v : list spec_float) (packed : list (list Z)) :
  Forall2 (fun f bs => pack_f f = Return bs) v packed ->
  Forall (fun bs => length bs = 4%nat) packed /\
  map unpack_f packed = map (fun f => double_of_single (round_single f)) v.
Proof.
  induction 1 as [| f bs v packed Hf _ [IHlen IHmap]]; [split; constructor |].
  destruct (unpack_pack_f f bs Hf) as [Hlen Hval].
  split; [constructor; assumption |].
  cbn [map]. now rewrite Hval, IHmap.
Qed.

(** Encoding [4 * k] floats and decoding the bytes behind a status byte
    gives back the first [k] of them, rounded to single precision. *)
Lemma decode_encode_radians data k (v : list spec_float) payload st :
  p_type data = "radians" ->
  p_length data = 4 * Z.of_nat k ->
  Z.of_nat (length v) = p_length data ->
  encode_payload data (map PyFloat v) = Return payload ->
  decode_response data (p_length data + 1) (st :: payload) =
    Return (PyTuple (map PyFloat
              (map (fun f => double_of_single (round_single f)) (take k v)))).
Proof.
  intros Ht Hk Hlen Henc.
  destruct (encode_radians data v payload Ht Hlen Henc) as (packed & Hall & ->).
  pose proof (Forall2_length _ _ _ Hall) as Hlen2.
  destruct (unpack_packed _ _ Hall) as [Hlen4 _].
  rewrite (decode_radians_full data k) by
    (try assumption; cbn [length]; rewrite concat_length4 by exact Hlen4; lia).
  change (drop 1 (st :: concat packed)) with (concat packed).
  rewrite chunks4_take, chunks4_concat by (try exact Hlen4; lia).
  destruct (unpack_packed _ _ (Forall2_take _ _ _ k Hall)) as [_ Hmap].
  rewrite <- Hmap, map_map. reflexivity.
Qed.

(** A [float] register is not decoded at all: [read] only knows
    [radians]. *)
Lemma decode_float_is_raw data length response :
  p_type data = "float" ->
  decode_response data length response = Return (PyList (map PyInt response)).
Proof. intros Ht. apply decode_raw. rewrite Ht. discriminate. Qed.

(** ** Encoding then decoding *)


(** * Further properties of the code *)

(** ** Discovery, on the contents of the bus *)

(** X1: a session returned by [find] wraps a device that is connected and
    carries the vendor id [0x2886]. *)
Theorem find_sound bus s :
  find bus = Some s -> dev s ∈ bus /\ idVendor (dev s) = 0x2886.
Proof.
  unfold find, vids_pids. cbn [find_loop]. intros H.
  destruct (usb_core_find 10374 (Some 26) bus) as [d1 |] eqn:E1.
  { injection H as <-. apply usb_core_find_Some in E1 as (? & ? & _). auto. }
  destruct (usb_core_find 10374 (Some 24) bus) as [d2 |] eqn:E2.
  { injection H as <-. apply usb_core_find_Some in E2 as (? & ? & _). auto. }
  destruct (usb_core_find 10374 None bus) as [d3 |] eqn:E3; [| discriminate].
  injection H as <-. apply usb_core_find_Some in E3 as (? & ? & _). auto.
Qed.

Lemma find_sound_witness :
  dev (Session (dead_device 0x0099)) ∈
    [dead_device 0x0099; constant_device 0x0099 []] /\
  idVendor (dev (Session (dead_device 0x0099))) = 0x2886.
Proof.
  apply (find_sound [dead_device 0x0099; constant_device 0x0099 []]
           (Session (dead_device 0x0099))).
  reflexivity.
Defined.

(** X4: the order of the candidate list decides, not the order of the bus:
    when a device with product id [0x001A] is connected, [find] returns a
    device with that product id, even if a [0x0018] device or another
    [0x2886] device comes first on the bus. *)
Theorem find_first_candidate_wins bus d :
  d ∈ bus -> idVendor d = 0x2886 -> idProduct d = 0x001A ->
  exists s, find bus = Some s /\ idProduct (dev s) = 0x001A.
Proof.
  intros Hin Hv Hp. unfold find, vids_pids. cbn [find_loop].
  destruct (usb_core_find 10374 (Some 26) bus) as [d1 |] eqn:E1.
  - apply usb_core_find_Some in E1 as (_ & _ & ?). eauto.
  - destruct (usb_core_find_None _ _ _ E1 d Hin Hv Hp).
Qed.

Lemma find_first_candidate_wins_witness :
  exists s,
    find [constant_device 0x0018 []; dead_device 0x0099; constant_device 0x001A [7]] =
      Some s /\
    idProduct (dev s) = 0x001A.
Proof.
  apply (find_first_candidate_wins _ (constant_device 0x001A [7])).
  - do 2 apply list_elem_of_further. apply list_elem_of_here.
  - reflexivity.
  - reflexivity.
Defined.

(** ** What [read] can return for the azimuth register *)

Lemma decode_azimuth_cases response :
  decode_response (Entry 33 75 16 "ro" "radians") (16 + 1) response =
    Raise StructError \/
  exists f0 f1 f2 f3,
    decode_response (Entry 33 75 16 "ro" "radians") (16 + 1) response =
      Return (PyTuple [PyFloat f0; PyFloat f1; PyFloat f2; PyFloat f3]).
Proof.
  destruct (Nat.lt_ge_cases (length response) 17) as [Hshort | Hfull].
  - left.
    apply (decode_radians_short (Entry 33 75 16 "ro" "radians") 4 response);
      cbn; try reflexivity; lia.
  - right.
    pose proof (decode_radians_full (Entry 33 75 16 "ro" "radians") 4 response
                  eq_refl eq_refl) as H.
    cbn [p_length chunks4 map] in H. rewrite H by (cbn; lia). eauto.
Qed.

(** X5: whatever the device does, [read("AEC_AZIMUTH_VALUES")] either
    raises ([USBError] from the transport, [struct.error] on an answer
    shorter than 17 bytes) or returns a tuple of exactly four floats; it
    never returns [None], a list, or a tuple of another length. *)
Theorem read_azimuth_outcomes self :
  fst (read self "AEC_AZIMUTH_VALUES") = Raise USBError \/
  fst (read self "AEC_AZIMUTH_VALUES") = Raise StructError \/
  exists f0 f1 f2 f3,
    fst (read self "AEC_AZIMUTH_VALUES") =
      Return (PyTuple [PyFloat f0; PyFloat f1; PyFloat f2; PyFloat f3]).
Proof.
  rewrite (read_registered self "AEC_AZIMUTH_VALUES"
             (Entry 33 75 16 "ro" "radians") eq_refl).
  cbn [fst].
  destruct (firmware _ _ _) as [response |]; [| auto].
  right. apply decode_azimuth_cases.
Qed.

(** ** The azimuth line *)

(** X6: on a tuple of floats of any length the azimuth handling returns
    normally: nothing for an empty tuple, one angle for a single value, and
    the first two values otherwise, each converted as
    [x * 180.0 / math.pi]. *)
Theorem azimuth_fields_total (fs : list spec_float) :
  azimuth_fields (PyTuple (map PyFloat fs)) =
    Return
      match fs with
      | [] => None
      | [a0] => Some (degrees a0, None)
      | a0 :: a1 :: _ => Some (degrees a0, Some (degrees a1))
      end.
Proof.
  destruct fs as [| a0 [| a1 rest]]; try reflexivity.
  unfold azimuth_fields. cbn [truthy items map length Nat.eqb negb andb].
  replace (0 <? Z.of_nat (S (S (length (map PyFloat rest))))) with true
    by (symmetry; apply Z.ltb_lt; lia).
  replace (1 <? Z.of_nat (S (S (length (map PyFloat rest))))) with true
    by (symmetry; apply Z.ltb_lt; lia).
  reflexivity.
Qed.

(** ** The payload loops, both ways *)

Lemma pack_loop_ok pack (values : list pyval) (packed : list (list Z)) :
  Forall2 (fun x bs => pack x = Return bs) values packed ->
  forall pre payload,
    pack_loop pack (pre ++ values) (seq (length pre) (length values)) payload =
      Return (payload ++ concat packed).
Proof.
  induction 1 as [| x bs values packed Hx _ IH]; intros pre payload.
  - cbn. now rewrite app_nil_r.
  - cbn [length seq pack_loop].
    unfold py_index. rewrite list_lookup_middle by reflexivity. cbn [bind].
    rewrite Hx. cbn [bind].
    specialize (IH (pre ++ [x]) (payload ++ bs)).
    rewrite <- app_assoc, length_app in IH. cbn [app length] in IH.
    rewrite Nat.add_1_r in IH. rewrite IH.
    cbn [concat]. now rewrite app_assoc.
Qed.

Lemma pack_loop_error pack data_list idx : forall payload e,
  pack_loop pack data_list idx payload = Raise e ->
  e = IndexError \/ exists x, pack x = Raise e.
Proof.
  induction idx as [| i idx IH]; intros payload e H; [discriminate |].
  cbn [pack_loop] in H. unfold py_index in H.
  destruct (data_list !! i) as [x |]; cbn [bind] in H;
    [| injection H as <-; auto].
  destruct (pack x) as [bs | e'] eqn:Ex; cbn [bind] in H.
  - eauto.
  - injection H as <-. eauto.
Qed.

Lemma pack_loop_in_range pack data_list k : forall i payload out,
  pack_loop pack data_list (seq i k) payload = Return out ->
  (0 < k)%nat -> (i + k <= length data_list)%nat.
Proof.
  induction k as [| k IH]; intros i payload out H Hk; [lia |].
  cbn [seq pack_loop] in H.
  destruct (py_index data_list i) as [x | e] eqn:Ex; [| discriminate].
  apply py_index_Return, lookup_lt_Some in Ex.
  cbn [bind] in H. destruct (pack x) as [bs | e]; [| discriminate].
  cbn [bind] in H.
  destruct k as [| k']; [lia |].
  specialize (IH _ _ _ H ltac:(lia)). lia.
Qed.

Lemma le_split_bytes n w : Forall is_byte (le_split n w).
Proof.
  revert w; induction n as [| n IH]; intros w; cbn [le_split]; constructor.
  - apply Z.mod_pos_bound. lia.
  - apply IH.
Qed.

Lemma to_bytes_1_Return x bs :
  to_bytes_1 x = Return bs -> exists z, x = PyInt z /\ bs = [z] /\ is_byte z.
Proof.
  destruct x as [z | f]; cbn [to_bytes_1]; [| discriminate].
  destruct (Z.leb_spec 0 z), (Z.ltb_spec z 256); cbn [andb]; try discriminate.
  intros [= <-]. exists z. unfold is_byte. auto.
Qed.

Lemma to_bytes_1_byte z : is_byte z -> to_bytes_1 (PyInt z) = Return [z].
Proof.
  intros [Hlo Hhi]. cbn [to_bytes_1].
  rewrite (proj2 (Z.leb_le _ _) Hlo), (proj2 (Z.ltb_lt _ _) Hhi). reflexivity.
Qed.

Lemma pack_i_Return x bs :
  pack_i x = Return bs ->
  exists z, x = PyInt z /\ - 2 ^ 31 <= z < 2 ^ 31 /\ bs = le_split 4 (z mod 2 ^ 32).
Proof.
  destruct x as [z | f]; cbn [pack_i]; [| discriminate].
  destruct (Z.leb_spec (- 2 ^ 31) z), (Z.ltb_spec z (2 ^ 31)); cbn [andb];
    try discriminate.
  intros [= <-]. exists z. auto.
Qed.

Lemma pack_i_int z :
  - 2 ^ 31 <= z < 2 ^ 31 -> pack_i (PyInt z) = Return (le_split 4 (z mod 2 ^ 32)).
Proof.
  intros [Hlo Hhi]. cbn [pack_i].
  rewrite (proj2 (Z.leb_le _ _) Hlo), (proj2 (Z.ltb_lt _ _) Hhi). reflexivity.
Qed.

Lemma pack_float_Return x bs :
  (f <- py_float x ;; pack_f f) = Return bs ->
  exists f, py_float x = Return f /\ bs = le_split 4 (f32_bits (round_single f)).
Proof.
  destruct (py_float x) as [f | e]; cbn [bind]; [| discriminate].
  intros H. exists f. split; [reflexivity |].
  unfold pack_f in H. congruence.
Qed.

Lemma in_types_false t ts : t ∉ ts -> in_types t ts = false.
Proof. intros H. unfold in_types. now apply bool_decide_eq_false. Qed.

Lemma in_types_true t ts : t ∈ ts -> in_types t ts = true.
Proof. intros H. unfold in_types. now apply bool_decide_eq_true. Qed.

(** How [encode_payload] dispatches on the data type. *)
Lemma encode_payload_bytes data data_list :
  p_type data = "uint8" \/ p_type data = "char" ->
  encode_payload data data_list =
    pack_loop to_bytes_1 data_list (py_range (p_length data)) [].
Proof.
  intros Ht. unfold encode_payload. destruct Ht as [-> | ->]; reflexivity.
Qed.

Lemma encode_payload_ints data data_list :
  p_type data ∉ ["float"; "radians"; "char"; "uint8"] ->
  encode_payload data data_list =
    pack_loop pack_i data_list (py_range (p_length data)) [].
Proof.
  intros Ht. unfold encode_payload.
  rewrite !in_types_false; [reflexivity | |];
    intros Hin; apply Ht; clear Ht;
    repeat (apply elem_of_cons in Hin as [Hin | Hin]);
    try (rewrite Hin; repeat constructor);
    inversion Hin.
Qed.

Lemma bytes_packed (values : list pyval) (packed : list (list Z)) :
  Forall2 (fun x bs => to_bytes_1 x = Return bs) values packed ->
  values = map PyInt (concat packed) /\ Forall is_byte (concat packed).
Proof.
  induction 1 as [| x bs values packed Hx _ [IHv IHb]]; [split; constructor |].
  apply to_bytes_1_Return in Hx as (z & -> & -> & Hz).
  cbn [concat app map]. split; [now f_equal | now constructor].
Qed.

Lemma bytes_pack_each (payload : list Z) :
  Forall is_byte payload ->
  Forall2 (fun x bs => to_bytes_1 x = Return bs)
    (map PyInt payload) (map (fun z => [z]) payload) /\
  concat (map (fun z => [z]) payload) = payload.
Proof.
  induction 1 as [| z payload Hz _ [IH1 IH2]]; [split; constructor |].
  cbn [map concat app]. split; [| now f_equal].
  constructor; [now apply to_bytes_1_byte | exact IH1].
Qed.

Lemma encode_bytes data (payload : list Z) :
  p_type data = "uint8" \/ p_type data = "char" ->
  Z.of_nat (length payload) = p_length data ->
  Forall is_byte payload ->
  encode_payload data (map PyInt payload) = Return payload.
Proof.
  intros Ht Hlen Hb. rewrite encode_payload_bytes by exact Ht.
  destruct (bytes_pack_each payload Hb) as [Hall Hcat].
  pose proof (pack_loop_ok _ _ _ Hall [] []) as H.
  cbn [app length] in H. rewrite Hcat, length_map in H.
  unfold py_range. rewrite <- Hlen, Nat2Z.id. exact H.
Qed.

Lemma ints_pack_each (zs : list Z) :
  Forall (fun z => - 2 ^ 31 <= z < 2 ^ 31) zs ->
  Forall2 (fun x bs => pack_i x = Return bs)
    (map PyInt zs) (map (fun z => le_split 4 (z mod 2 ^ 32)) zs).
Proof.
  induction 1 as [| z zs Hz _ IH]; cbn [map]; constructor.
  - now apply pack_i_int.
  - exact IH.
Qed.

Lemma signed32_le_split z :
  - 2 ^ 31 <= z < 2 ^ 31 ->
  signed32 (le_combine (le_split 4 (z mod 2 ^ 32))) = z.
Proof.
  intros Hz.
  rewrite le_combine_split
    by (change (256 ^ Z.of_nat 4) with (2 ^ 32); apply Z.mod_pos_bound; lia).
  unfold signed32. change (2 ^ 32) with 4294967296.
  change (2 ^ 31) with 2147483648 in *.
  destruct (Z.ltb_spec (z mod 4294967296) 2147483648);
    Z.div_mod_to_equations; lia.
Qed.

(** ** Encoding integer registers *)

(** X7: for a [uint8] or [char] register and a value sequence of the
    declared length, the encoder succeeds exactly when every value is an
    integer in [0, 255], and the payload then is those integers, one byte
    each. *)
Theorem encode_bytes_iff data data_list payload :
  p_type data = "uint8" \/ p_type data = "char" ->
  Z.of_nat (length data_list) = p_length data ->
  encode_payload data data_list = Return payload <->
  data_list = map PyInt payload /\ Forall is_byte payload.
Proof.
  intros Ht Hlen. split.
  - rewrite encode_payload_bytes by exact Ht. unfold py_range. intros H.
    apply pack_loop_seq in H as (packed & Hall & ->).
    rewrite drop_0, take_ge in Hall by lia.
    cbn [app]. exact (bytes_packed _ _ Hall).
  - intros [-> Hb]. rewrite length_map in Hlen.
    exact (encode_bytes data payload Ht Hlen Hb).
Qed.

Lemma encode_bytes_iff_witness :
  encode_payload (Entry 48 7 1 "wo" "uint8") [PyInt 1] = Return [1] <->
  [PyInt 1] = map PyInt [1] /\ Forall is_byte [1].
Proof.
  apply (encode_bytes_iff (Entry 48 7 1 "wo" "uint8") [PyInt 1] [1]).
  - left. reflexivity.
  - reflexivity.
Defined.

(** X8: for a register of any other type than [float], [radians], [char]
    and [uint8], integers within the signed 32-bit range are encoded as four
    little-endian two's-complement bytes each: reading the payload back in
    4-byte groups as signed integers returns the values. *)
Theorem encode_int32_round_trip data (zs : list Z) :
  p_type data ∉ ["float"; "radians"; "char"; "uint8"] ->
  Z.of_nat (length zs) = p_length data ->
  Forall (fun z => - 2 ^ 31 <= z < 2 ^ 31) zs ->
  exists payload,
    encode_payload data (map PyInt zs) = Return payload /\
    length payload = (4 * length zs)%nat /\
    map (fun c => signed32 (le_combine c)) (chunks4 (length zs) payload) = zs.
Proof.
  intros Ht Hlen Hr.
  set (packed := map (fun z => le_split 4 (z mod 2 ^ 32)) zs).
  pose proof (ints_pack_each zs Hr) as Hall. fold packed in Hall.
  assert (Hlen4 : Forall (fun bs => length bs = 4%nat) packed).
  { subst packed. apply Forall_fmap, Forall_true. intros z. apply le_split_length. }
  assert (Hn : length packed = length zs) by (subst packed; apply length_map).
  exists (concat packed). split; [| split].
  - rewrite encode_payload_ints by exact Ht. unfold py_range.
    pose proof (pack_loop_ok _ _ _ Hall [] []) as H.
    cbn [app length] in H. rewrite length_map in H.
    rewrite <- Hlen, Nat2Z.id. exact H.
  - rewrite concat_length4 by exact Hlen4. now rewrite Hn.
  - rewrite chunks4_concat by (try exact Hlen4; lia).
    rewrite take_ge by lia. subst packed. rewrite map_map.
    clear Hall Hlen4 Hn Hlen.
    induction Hr as [| z zs Hz _ IH]; [reflexivity |].
    cbn [map]. rewrite IH. f_equal. now apply signed32_le_split.
Qed.

Lemma encode_int32_round_trip_witness :
  exists payload,
    encode_payload (Entry 20 18 4 "ro" "uint16") (map PyInt sample_ints) =
      Return payload /\
    length payload = (4 * length sample_ints)%nat /\
    map (fun c => signed32 (le_combine c)) (chunks4 (length sample_ints) payload) =
      sample_ints.
Proof.
  apply (encode_int32_round_trip (Entry 20 18 4 "ro" "uint16") sample_ints).
  - cbn [p_type]. intros Hin.
    repeat (apply elem_of_cons in Hin as [Hin | Hin]); try discriminate.
    inversion Hin.
  - reflexivity.
  - repeat constructor; cbn; lia.
Defined.

(** ** Writing *)

Lemma encode_never_USBError data data_list e :
  encode_payload data data_list = Raise e -> e <> USBError.
Proof.
  unfold encode_payload. intros H.
  destruct (in_types (p_type data) ["float"; "radians"]);
    [| destruct (in_types (p_type data) ["char"; "uint8"])];
    apply pack_loop_error in H as [-> | [x Hx]]; try discriminate.
  - destruct x as [z | f]; cbn [py_float bind] in Hx.
    + destruct (binary_normalize 53 1024 z 0 false); cbn [bind] in Hx;
        try (injection Hx as <-; discriminate);
        unfold pack_f in Hx; congruence.
    + unfold pack_f in Hx. congruence.
  - destruct x as [z | f]; cbn [to_bytes_1] in Hx; [| congruence].
    destruct ((0 <=? z) && (z <? 256)); congruence.
  - destruct x as [z | f]; cbn [pack_i] in Hx; [| congruence].
    destruct ((- 2 ^ 31 <=? z) && (z <? 2 ^ 31)); congruence.
Qed.

(** X9: a [write] issues at most one control transfer, an OUT vendor
    request with [bRequest = 0]; and whenever it raises anything but a
    transport error (unknown access, wrong count, a value that cannot be
    encoded) it has issued none: the session is exactly as before. *)
Theorem write_all_or_nothing self name data_list :
  (forall e, fst (write self name data_list) = Raise e -> e <> USBError ->
             snd (write self name data_list) = self) /\
  (snd (write self name data_list) = self \/
   exists rq,
     snd (write self name data_list) = Session (after_transfer (dev self) rq) /\
     bmRequestType rq = 0x40 /\ bRequest rq = 0 /\ timeout rq = 100000).
Proof.
  unfold write.
  destruct (PARAMETERS !! name) as [data |]; [| split; auto].
  destruct (String.eqb (p_access data) "ro"); [split; auto |].
  destruct (negb _); [split; auto |].
  destruct (encode_payload data data_list) as [payload | e0]; [| split; auto].
  unfold ctrl_transfer.
  destruct (firmware _ _ _); cbn [fst snd bind]; split.
  - discriminate.
  - right. eexists. split; [reflexivity |]. cbn. auto.
  - intros e [= <-] He. contradiction.
  - right. eexists. split; [reflexivity |]. cbn. auto.
Qed.

Lemma write_all_or_nothing_witness :
  snd (write (sample_session []) "REBOOT" [PyInt 256]) = sample_session [].
Proof.
  apply (proj1 (write_all_or_nothing (sample_session []) "REBOOT" [PyInt 256])
           OverflowError).
  - reflexivity.
  - discriminate.
Defined.

(** X10: on a registered [uint8] register that is not read-only, writing
    as many byte values as the register declares issues one OUT vendor
    transfer with [wValue = cmdid] (the read bit [0x80] is not set),
    [wIndex = resid] and the values themselves as payload; [write] returns
    [None], or raises [USBError] when the transport fails. *)
Theorem write_bytes_transfer self name data (payload : list Z) :
  PARAMETERS !! name = Some data ->
  p_access data <> "ro" ->
  p_type data = "uint8" ->
  Z.of_nat (length payload) = p_length data ->
  Forall is_byte payload ->
  let rq := CtrlRequest 0x40 0 (p_cmdid data) (p_resid data) (Payload payload) 100000 in
  write self name (map PyInt payload) =
    (match firmware (dev self) (transfers (dev self)) rq with
     | Some _ => Return PyNone
     | None => Raise USBError
     end,
     Session (after_transfer (dev self) rq)).
Proof.
  intros H Hro Ht Hlen Hb rq. unfold write. rewrite H.
  destruct (String.eqb_spec (p_access data) "ro") as [? | _]; [contradiction |].
  rewrite length_map.
  rewrite (proj2 (Z.eqb_eq _ _) Hlen). cbn [negb].
  rewrite (encode_bytes data payload (or_introl Ht) Hlen Hb).
  unfold ctrl_transfer. fold rq.
  change (CtrlRequest (Z.lor (Z.lor CTRL_OUT CTRL_TYPE_VENDOR) CTRL_RECIPIENT_DEVICE)
            0 (p_cmdid data) (p_resid data) (Payload payload) TIMEOUT) with rq.
  destruct (firmware (dev self) (transfers (dev self)) rq); reflexivity.
Qed.

Lemma write_bytes_transfer_witness :
  write (sample_session []) "REBOOT" (map PyInt [1]) =
    (Return PyNone,
     Session (after_transfer (dev (sample_session []))
                (CtrlRequest 0x40 0 7 48 (Payload [1]) 100000))).
Proof.
  apply (write_bytes_transfer (sample_session []) "REBOOT"
           (Entry 48 7 1 "wo" "uint8") [1]).
  - reflexivity.
  - discriminate.
  - reflexivity.
  - reflexivity.
  - repeat constructor; cbn; lia.
Defined.

(** ** Shape of every payload *)

Lemma packed_shape pack (w : nat) (values : list pyval) (packed : list (list Z)) :
  (forall x bs, pack x = Return bs -> length bs = w /\ Forall is_byte bs) ->
  Forall2 (fun x bs => pack x = Return bs) values packed ->
  length (concat packed) = (w * length values)%nat /\ Forall is_byte (concat packed).
Proof.
  intros Hpack. induction 1 as [| x bs values packed Hx _ [IHl IHb]].
  - cbn. split; [lia | constructor].
  - destruct (Hpack x bs Hx) as [Hl Hb].
    cbn [concat length]. rewrite length_app, IHl, Hl. split; [lia |].
    apply Forall_app. auto.
Qed.

Lemma pack_loop_shape pack (w : nat) data_list (n : Z) payload :
  (forall x bs, pack x = Return bs -> length bs = w /\ Forall is_byte bs) ->
  pack_loop pack data_list (py_range n) [] = Return payload ->
  length payload = (w * Z.to_nat n)%nat /\ Forall is_byte payload.
Proof.
  intros Hpack H. unfold py_range in H.
  pose proof (pack_loop_in_range _ _ _ _ _ _ H) as Hrange.
  apply pack_loop_seq in H as (packed & Hall & ->). cbn [app].
  destruct (packed_shape pack w _ _ Hpack Hall) as [Hl Hb].
  split; [| exact Hb].
  rewrite Hl, drop_0, length_take. f_equal.
  destruct (Z.to_nat n) as [| k]; [reflexivity |].
  specialize (Hrange ltac:(lia)). lia.
Qed.

(** X11: whenever the encoder succeeds, the payload consists of bytes (every
    element is in [0, 255]) and holds one byte per declared element for
    [char] and [uint8] registers and four bytes per declared element for
    every other type. *)
Theorem encode_payload_shape data data_list payload :
  encode_payload data data_list = Return payload ->
  length payload =
    (bytes_per_element (p_type data) * Z.to_nat (p_length data))%nat /\
  Forall is_byte payload.
Proof.
  unfold encode_payload, bytes_per_element. intros H.
  destruct (in_types (p_type data) ["float"; "radians"]);
    [| destruct (in_types (p_type data) ["char"; "uint8"])];
    (eapply pack_loop_shape; [| exact H]); intros x bs Hx.
  - apply pack_float_Return in Hx as (f & _ & ->).
    split; [apply le_split_length | apply le_split_bytes].
  - apply to_bytes_1_Return in Hx as (z & _ & -> & Hz).
    split; [reflexivity | now constructor].
  - apply pack_i_Return in Hx as (z & _ & _ & ->).
    split; [apply le_split_length | apply le_split_bytes].
Qed.

Lemma encode_payload_shape_witness :
  length (concat (map (fun f => le_split 4 (f32_bits (round_single f))) sample_values)) =
    (bytes_per_element "radians" * Z.to_nat 16)%nat /\
  Forall is_byte
    (concat (map (fun f => le_split 4 (f32_bits (round_single f))) sample_values)).
Proof.
  apply (encode_payload_shape (Entry 33 75 16 "ro" "radians") (map PyFloat sample_values)).
  vm_compute. reflexivity.
Defined.

(** ** Integer registers keep the status byte *)

(** X12: for a [uint8] or [char] register, encoding byte values and
    decoding the payload behind a status byte returns the status byte
    followed by the values: unlike a radians register, an integer register
    is read back with its header byte in front. *)
Theorem decode_encode_bytes data (payload : list Z) st :
  p_type data = "uint8" \/ p_type data = "char" ->
  Z.of_nat (length payload) = p_length data ->
  Forall is_byte payload ->
  exists encoded,
    encode_payload data (map PyInt payload) = Return encoded /\
    decode_response data (p_length data + 1) (st :: encoded) =
      Return (PyList (PyInt st :: map PyInt payload)).
Proof.
  intros Ht Hlen Hb. exists payload.
  split; [exact (encode_bytes data payload Ht Hlen Hb) |].
  rewrite decode_raw; [reflexivity |].
  destruct Ht as [-> | ->]; discriminate.
Qed.

Lemma decode_encode_bytes_witness :
  exists encoded,
    encode_payload (Entry 48 0 3 "ro" "uint8") (map PyInt [1; 2; 255]) =
      Return encoded /\
    decode_response (Entry 48 0 3 "ro" "uint8") (3 + 1) (9 :: encoded) =
      Return (PyList (PyInt 9 :: map PyInt [1; 2; 255])).
Proof.
  apply (decode_encode_bytes (Entry 48 0 3 "ro" "uint8") [1; 2; 255] 9).
  - left. reflexivity.
  - reflexivity.
  - repeat constructor; cbn; lia.
Defined.

(** ** Radians registers give back a prefix *)

Lemma encode_floats data (v : list spec_float) :
  p_type data = "radians" ->
  Z.of_nat (length v) = p_length data ->
  encode_payload data (map PyFloat v) =
    Return (concat (map (fun f => le_split 4 (f32_bits (round_single f))) v)).
Proof.
  intros Ht Hlen. unfold encode_payload. rewrite Ht, in_types_radians.
  unfold py_range. rewrite <- Hlen, Nat2Z.id.
  assert (Hall : Forall2 (fun x bs => (f <- py_float x ;; pack_f f) = Return bs)
                   (map PyFloat v)
                   (map (fun f => le_split 4 (f32_bits (round_single f))) v)).
  { clear. induction v as [| f v IH]; constructor; [reflexivity | exact IH]. }
  pose proof (pack_loop_ok _ _ _ Hall [] []) as H.
  rewrite length_map in H. exact H.
Qed.

(** X19: for a radians register whose length is a multiple of 4, every
    sequence of that many floats is encoded, whatever their magnitude, into
    four bytes per value; decoding that payload behind any status byte
    returns the first quarter of the values only, each rounded to single
    precision.  So the sixteen values the encoder takes for
    [AEC_AZIMUTH_VALUES] come back as four. *)
Theorem radians_round_trip_prefix data k (v : list spec_float) st :
  p_type data = "radians" ->
  p_length data = 4 * Z.of_nat k ->
  Z.of_nat (length v) = p_length data ->
  exists payload,
    encode_payload data (map PyFloat v) = Return payload /\
    length payload = (4 * length v)%nat /\
    decode_response data (p_length data + 1) (st :: payload) =
      Return (PyTuple (map PyFloat
                (map (fun f => double_of_single (round_single f)) (take k v)))).
Proof.
  intros Ht Hk Hlen.
  pose proof (encode_floats data v Ht Hlen) as Henc.
  eexists. split; [exact Henc |]. split.
  - clear. induction v as [| f v IH]; [reflexivity |].
    cbn [map concat]. rewrite length_app, le_split_length, IH. cbn [length]. lia.
  - exact (decode_encode_radians data k v _ st Ht Hk Hlen Henc).
Qed.

Lemma radians_round_trip_prefix_witness :
  exists payload,
    encode_payload (Entry 33 75 16 "ro" "radians") (map PyFloat sample_values) =
      Return payload /\
    length payload = (4 * length sample_values)%nat /\
    decode_response (Entry 33 75 16 "ro" "radians") (16 + 1) (7 :: payload) =
      Return (PyTuple (map PyFloat
                (map (fun f => double_of_single (round_single f))
                   (take 4 sample_values)))).
Proof.
  apply (radians_round_trip_prefix (Entry 33 75 16 "ro" "radians") 4 sample_values 7);
    reflexivity.
Defined.

(** ** The polling loop *)

Lemma with_transfers_app d a b :
  with_transfers (with_transfers d a) b = with_transfers d (a ++ b).
Proof. unfold with_transfers. cbn. now rewrite app_assoc. Qed.

Lemma with_transfers_nil d : with_transfers d [] = d.
Proof. destruct d. unfold with_transfers. cbn. now rewrite app_nil_r. Qed.

Lemma answers_in_full_with_transfers d issued :
  answers_in_full d -> answers_in_full (with_transfers d issued).
Proof. intros H history rq n Hn Hpos. exact (H history rq n Hn Hpos). Qed.

Lemma read_doa_value self :
  read self "DOA_VALUE" =
    (match firmware (dev self) (transfers (dev self)) doa_request with
     | Some response => Return (PyList (map PyInt response))
     | None => Raise USBError
     end,
     Session (with_transfers (dev self) [doa_request])).
Proof.
  rewrite (read_registered self "DOA_VALUE" (Entry 20 18 4 "ro" "uint16") eq_refl).
  fold doa_request. destruct (firmware _ _ _); reflexivity.
Qed.

Lemma read_azimuth_values self :
  read self "AEC_AZIMUTH_VALUES" =
    (match firmware (dev self) (transfers (dev self)) azimuth_request with
     | Some response =>
         decode_response (Entry 33 75 16 "ro" "radians") (16 + 1) response
     | None => Raise USBError
     end,
     Session (with_transfers (dev self) [azimuth_request])).
Proof.
  rewrite (read_registered self "AEC_AZIMUTH_VALUES"
             (Entry 33 75 16 "ro" "radians") eq_refl).
  reflexivity.
Qed.

Lemma read_version self :
  read self "VERSION" =
    (match firmware (dev self) (transfers (dev self)) version_request with
     | Some response => Return (PyList (map PyInt response))
     | None => Raise USBError
     end,
     Session (with_transfers (dev self) [version_request])).
Proof.
  rewrite (read_registered self "VERSION" (Entry 48 0 3 "ro" "uint8") eq_refl).
  fold version_request. destruct (firmware _ _ _); reflexivity.
Qed.

Lemma doa_fields_bytes (bytes : list Z) :
  exists shown,
    doa_fields (PyList (map PyInt bytes)) = Return shown /\
    (bytes <> [] -> exists line, shown = Some line).
Proof.
  destruct bytes as [| b0 [| b1 [| b2 [| b3 rest]]]];
    try (eexists; split; [reflexivity | intros _; eexists; reflexivity]).
  - eexists. split; [reflexivity | intros H; contradiction].
  - unfold doa_fields. cbn [truthy items map length Nat.eqb negb andb].
    replace (0 <? Z.of_nat (S (S (S (S (length (map PyInt rest))))))) with true
      by (symmetry; apply Z.ltb_lt; lia).
    replace (3 <=? Z.of_nat (S (S (S (S (length (map PyInt rest))))))) with true
      by (symmetry; apply Z.leb_le; lia).
    replace (3 <? Z.of_nat (S (S (S (S (length (map PyInt rest))))))) with true
      by (symmetry; apply Z.ltb_lt; lia).
    eexists. split; [reflexivity | intros _; eauto].
Qed.

Lemma azimuth_fields_four f0 f1 f2 f3 :
  azimuth_fields (PyTuple [PyFloat f0; PyFloat f1; PyFloat f2; PyFloat f3]) =
    Return (Some (degrees f0, Some (degrees f1))).
Proof. reflexivity. Qed.

Lemma loop_event_not_closed ev : loop_event ev -> is_closed ev = false.
Proof. destruct ev; cbn; intros H; try reflexivity; destruct H. Qed.

Lemma prelude_event_not_closed ev : prelude_event ev -> is_closed ev = false.
Proof. destruct ev; cbn; intros H; try reflexivity; destruct H. Qed.

Lemma schedule_reads n :
  Forall (fun rq => bmRequestType rq = 0xC0 /\ exists k, wData rq = WLength k)
    (schedule n).
Proof.
  unfold schedule. constructor; [split; [reflexivity | eexists; reflexivity] |].
  induction n as [| n IH]; [constructor |].
  cbn [replicate concat app].
  repeat (constructor; [split; [reflexivity | eexists; reflexivity] |]).
  exact IH.
Qed.

(** *** One numbered point *)

Lemma step_raised {A} (effect : run_state -> outcome A * run_state) env st sig :
  env (clock st) = Some sig ->
  step effect env st =
    (Raised sig, RunState (S (clock st)) (console st) (session st)).
Proof. intros H. unfold step. now rewrite H. Qed.

Lemma step_quiet {A} (effect : run_state -> outcome A * run_state) env st :
  env (clock st) = None ->
  step effect env st =
    effect (RunState (S (clock st)) (console st) (session st)).
Proof. intros H. unfold step. now rewrite H. Qed.

Lemma state_unchanged c out s :
  RunState c out s =
    RunState c (out ++ []) (Session (with_transfers (dev s) [])).
Proof. rewrite app_nil_r, with_transfers_nil. now destruct s. Qed.

(** *** Rules for [behaves] *)

Lemma behaves_ret {A} (a : A) (Q : A -> Prop) : Q a -> behaves (ret a) [] Q.
Proof.
  intros HQ env st. exists (Done a), (clock st), [], [], [].
  split; [destruct st; apply (f_equal (pair _)), state_unchanged |].
  split; [constructor |]. split; [reflexivity |].
  intros a' [= <-]. auto.
Qed.

Lemma behaves_pure {A} (r : result A) :
  behaves (pure r) [] (fun a => r = Return a).
Proof.
  intros env st.
  exists (match r with Return a => Done a | Raise e => Raised (Exn e) end),
    (clock st), [], [], [].
  split; [destruct st; apply (f_equal (pair _)), state_unchanged |].
  split; [constructor |]. split; [reflexivity |].
  intros a H. destruct r; [injection H as -> | discriminate]. auto.
Qed.

Lemma behaves_running {A} (Q : A -> Prop) :
  behaves (fun _ st => (Running, st)) [] Q.
Proof.
  intros env st. exists Running, (clock st), [], [], [].
  split; [destruct st; apply (f_equal (pair _)), state_unchanged |].
  split; [constructor |]. split; [reflexivity | discriminate].
Qed.

Lemma behaves_say ev : loop_event ev -> behaves (say ev) [] (fun _ => True).
Proof.
  intros Hev env st. unfold say.
  destruct (env (clock st)) as [sig |] eqn:E.
  - rewrite (step_raised _ _ _ _ E).
    exists (Raised sig), (S (clock st)), [], [], [].
    split; [apply (f_equal (pair _)), state_unchanged |].
    split; [constructor |]. split; [reflexivity | discriminate].
  - rewrite (step_quiet _ _ _ E). cbn [clock console session].
    exists (Done tt), (S (clock st)), [ev], [], [].
    rewrite with_transfers_nil.
    split; [now destruct (session st) |].
    split; [repeat constructor; exact Hev |]. split; [reflexivity | auto].
Qed.

Lemma behaves_reading_doa :
  behaves (reading "DOA_VALUE") [doa_request] (fun _ => True).
Proof.
  intros env st. unfold reading.
  destruct (env (clock st)) as [sig |] eqn:E.
  - rewrite (step_raised _ _ _ _ E).
    exists (Raised sig), (S (clock st)), [], [], [doa_request].
    split; [apply (f_equal (pair _)), state_unchanged |].
    split; [constructor |]. split; [reflexivity | discriminate].
  - rewrite (step_quiet _ _ _ E). cbn [clock console session].
    rewrite read_doa_value.
    eexists _, (S (clock st)), [], [doa_request], [].
    rewrite app_nil_r.
    split; [reflexivity |].
    split; [constructor |]. split; [reflexivity | auto].
Qed.

Lemma behaves_reading_azimuth :
  behaves (reading "AEC_AZIMUTH_VALUES") [azimuth_request]
    (fun v => exists f0 f1 f2 f3,
                v = PyTuple [PyFloat f0; PyFloat f1; PyFloat f2; PyFloat f3]).
Proof.
  intros env st. unfold reading.
  destruct (env (clock st)) as [sig |] eqn:E.
  - rewrite (step_raised _ _ _ _ E).
    exists (Raised sig), (S (clock st)), [], [], [azimuth_request].
    split; [apply (f_equal (pair _)), state_unchanged |].
    split; [constructor |]. split; [reflexivity | discriminate].
  - rewrite (step_quiet _ _ _ E). cbn [clock console session].
    rewrite read_azimuth_values.
    eexists _, (S (clock st)), [], [azimuth_request], [].
    rewrite app_nil_r.
    split; [reflexivity |].
    split; [constructor |]. split; [reflexivity |].
    intros v Hv. split; [reflexivity |].
    destruct (firmware _ _ _) as [response |]; [| discriminate].
    destruct (decode_azimuth_cases response) as [Herr | (f0 & f1 & f2 & f3 & Hok)].
    + rewrite Herr in Hv. discriminate.
    + rewrite Hok in Hv. injection Hv as <-. eauto.
Qed.

Lemma behaves_bind {A B} (m : M A) (k : A -> M B) planned p1 p2
    (Q1 : A -> Prop) (Q2 : B -> Prop) :
  behaves m p1 Q1 ->
  (forall a, Q1 a -> behaves (k a) p2 Q2) ->
  planned = p1 ++ p2 ->
  behaves (mbind m k) planned Q2.
Proof.
  intros Hm Hk -> env st.
  destruct (Hm env st) as (r & c & ev & issued & rest & Heq & Hev & -> & Hdone).
  unfold mbind. rewrite Heq. destruct r as [a | sig |].
  - destruct (Hdone a eq_refl) as [-> HQ].
    destruct (Hk a HQ env
                (RunState c (console st ++ ev)
                   (Session (with_transfers (dev (session st)) issued))))
      as (r' & c' & ev' & issued' & rest' & Heq' & Hev' & -> & Hdone').
    rewrite Heq'. cbn [console session dev].
    exists r', c', (ev ++ ev'), (issued ++ issued'), rest'.
    rewrite with_transfers_app, !app_assoc, app_nil_r.
    split; [reflexivity |].
    split; [apply Forall_app; auto |]. split; [reflexivity | exact Hdone'].
  - exists (Raised sig), c, ev, issued, (rest ++ p2).
    split; [reflexivity |]. split; [exact Hev |].
    split; [now rewrite app_assoc | discriminate].
  - exists Running, c, ev, issued, (rest ++ p2).
    split; [reflexivity |]. split; [exact Hev |].
    split; [now rewrite app_assoc | discriminate].
Qed.

Lemma behaves_show_doa shown : behaves (show_doa shown) [] (fun _ => True).
Proof.
  destruct shown as [line |]; [apply behaves_say; exact I | now apply behaves_ret].
Qed.

(** One iteration sends the DOA request, then the azimuth request, and
    prints loop events only: in particular an azimuth line shows two
    angles. *)
Lemma behaves_poll : behaves poll [doa_request; azimuth_request] (fun _ => True).
Proof.
  unfold poll.
  eapply behaves_bind; [apply behaves_reading_doa | intros doa _ | reflexivity].
  eapply behaves_bind; [apply behaves_say; exact I | intros _ _ | reflexivity].
  eapply behaves_bind; [apply behaves_pure | intros shown _ | reflexivity].
  eapply behaves_bind; [apply behaves_show_doa | intros _ _ | reflexivity].
  eapply behaves_bind;
    [apply behaves_reading_azimuth | intros az (f0 & f1 & f2 & f3 & ->) | reflexivity].
  rewrite azimuth_fields_four.
  eapply behaves_bind; [apply behaves_pure | intros shown' [= <-] | reflexivity].
  eapply behaves_bind; [apply behaves_say; exact I | intros _ _ | reflexivity].
  apply behaves_say. exact I.
Qed.

(** The loop never completes: it is left by something raised, or it is
    still running when the observation stops. *)
Lemma behaves_polling rounds :
  behaves (polling rounds)
    (concat (replicate rounds [doa_request; azimuth_request])) (fun _ => False).
Proof.
  induction rounds as [| rounds IH]; [apply behaves_running |].
  cbn [polling replicate concat].
  eapply behaves_bind; [apply behaves_poll | intros _ _ | reflexivity].
  eapply behaves_bind; [apply behaves_say; exact I | intros _ _ | reflexivity].
  exact IH.
Qed.

(** ** main *)

(** The [try] statement: loop events, then what the [except] and [finally]
    blocks add. *)
Lemma guarded_spec rounds env st :
  exists r c ev post issued rest,
    guarded rounds env st =
      (r, RunState c (console st ++ ev ++ post)
            (Session (with_transfers (dev (session st)) issued))) /\
    Forall loop_event ev /\
    concat (replicate rounds [doa_request; azimuth_request]) = issued ++ rest /\
    epilogue (with_transfers (dev (session st)) issued) r post.
Proof.
  unfold guarded.
  destruct (behaves_polling rounds env st)
    as (r & c & ev & issued & rest & -> & Hev & Hp & Hdone).
  destruct r as [a | sig |].
  - destruct (Hdone a eq_refl) as [_ []].
  - destruct sig as [e | | name];
      unfold say, closing, checkpoint, step, close;
      cbn [clock console session dev];
      destruct (env c); cbn [clock console session dev];
      destruct (env (S c)); cbn [clock console session dev];
      try (destruct (env (S (S c))); cbn [clock console session dev]);
      first
        [ eexists _, _, ev, [], issued, rest; rewrite app_nil_r;
          split; [reflexivity |]
        | eexists _, _, ev, [Stopped], issued, rest;
          split; [now rewrite <- ?app_assoc |]
        | eexists _, _, ev, [Closed _], issued, rest;
          split; [now rewrite <- ?app_assoc |]
        | eexists _, _, ev, [Stopped; Closed _], issued, rest;
          split; [now rewrite <- ?app_assoc |] ];
      (split; [exact Hev | split; [exact Hp | cbn; auto 6]]).
  - exists Running, c, ev, [], issued, rest. rewrite app_nil_r.
    split; [reflexivity |]. cbn. auto.
Qed.

(** Every run of [main]: either there is no session, nothing or the
    no-device message was printed and the run does not end normally; or a
    device was found, and the output is made of the lines printed before
    the [try] statement, loop events, and what the [except] and [finally]
    blocks add, while the requests sent are a prefix of the schedule. *)
Lemma main_shape bus env rounds :
  (exists e out,
      main bus env rounds = (e, None, out) /\ e <> Finished /\
      (out = [] \/ out = [NoDeviceFound]) /\
      (find bus = None \/ env 0%nat <> None)) \/
  (exists s0 r c pre ev post issued rest,
      find bus = Some s0 /\
      main bus env rounds =
        conclude (r, RunState c (pre ++ ev ++ post)
                       (Session (with_transfers (dev s0) issued))) /\
      Forall prelude_event pre /\ Forall loop_event ev /\
      epilogue (with_transfers (dev s0) issued) r post /\
      schedule rounds = issued ++ rest).
Proof.
  unfold main. destruct (env 0%nat) as [sig |] eqn:E0.
  { left. eexists _, _. split; [reflexivity |].
    split; [discriminate |]. split; [auto |]. right. discriminate. }
  destruct (find bus) as [s0 |]; cycle 1.
  { left. destruct (env 1%nat); [| destruct (env 2%nat)];
      (eexists _, _; split; [reflexivity |]; split; [discriminate |]; auto). }
  right. exists s0. unfold mbind, reading at 1.
  destruct (env 1%nat) as [sig |] eqn:E1.
  { rewrite (step_raised _ env (RunState 1 [] s0) sig E1). cbn [clock console session].
    exists (Raised sig), 2%nat, [], [], [], [], (schedule rounds).
    split; [reflexivity |].
    split; [now rewrite with_transfers_nil; destruct s0 |].
    split; [constructor |]. split; [constructor |].
    split; [cbn; auto | reflexivity]. }
  rewrite (step_quiet _ env (RunState 1 [] s0) E1). cbn [clock console session].
  rewrite read_version.
  destruct (firmware (dev s0) (transfers (dev s0)) version_request) as [response |];
    cycle 1.
  { exists (Raised (Exn USBError)), 2%nat, [], [], [], [version_request],
      (concat (replicate rounds [doa_request; azimuth_request])).
    split; [reflexivity |]. split; [reflexivity |].
    split; [constructor |]. split; [constructor |].
    split; [cbn; auto | reflexivity]. }
  unfold say at 1, step at 1. cbn [clock console session].
  destruct (env 2%nat) as [sig |].
  { exists (Raised sig), 3%nat, [], [], [], [version_request],
      (concat (replicate rounds [doa_request; azimuth_request])).
    split; [reflexivity |]. split; [reflexivity |].
    split; [constructor |]. split; [constructor |].
    split; [cbn; auto | reflexivity]. }
  unfold say at 1, step at 1. cbn [clock console session app].
  destruct (env 3%nat) as [sig |].
  { exists (Raised sig), 4%nat, [VersionRaw (PyList (map PyInt response))], [], [],
      [version_request], (concat (replicate rounds [doa_request; azimuth_request])).
    split; [reflexivity |]. split; [reflexivity |].
    split; [repeat constructor |]. split; [constructor |].
    split; [cbn; auto | reflexivity]. }
  unfold checkpoint at 1, step at 1. cbn [clock console session app].
  destruct (env 4%nat) as [sig |].
  { exists (Raised sig), 5%nat, [VersionRaw (PyList (map PyInt response)); Banner],
      [], [], [version_request],
      (concat (replicate rounds [doa_request; azimuth_request])).
    split; [reflexivity |]. split; [reflexivity |].
    split; [repeat constructor |]. split; [constructor |].
    split; [cbn; auto | reflexivity]. }
  destruct (guarded_spec rounds env
              (RunState 5 [VersionRaw (PyList (map PyInt response)); Banner]
                 (Session (with_transfers (dev s0) [version_request]))))
    as (r & c & ev & post & issued & rest & -> & Hev & Hp & Hpost).
  cbn [console session dev] in *. rewrite with_transfers_app in *.
  exists r, c, [VersionRaw (PyList (map PyInt response)); Banner], ev, post,
    ([version_request] ++ issued), rest.
  split; [reflexivity |]. split; [reflexivity |].
  split; [repeat constructor |]. split; [exact Hev |]. split; [exact Hpost |].
  unfold schedule. rewrite Hp. reflexivity.
Qed.

Lemma conclude_inv r st e s out :
  conclude (r, st) = (e, s, out) ->
  s = Some (session st) /\ out = console st /\
  (e = Finished -> exists a, r = Done a).
Proof.
  unfold conclude. intros [= <- <- <-].
  split; [reflexivity |]. split; [reflexivity |].
  destruct r; [eauto | discriminate | discriminate].
Qed.

(** X13: [close] is called at most once, as the last thing [main] does, and
    on the device of the session; and when [main] returns normally, the last
    two things it did are printing the stop message and closing the device.
    This holds whatever the device answers and whatever is raised, at any
    point of the run.  (A run can end without [close]: when no device is
    found, when something is raised before the [try] statement is entered,
    when a second signal arrives in the [finally] block before the call.) *)
Theorem main_closes_last bus env rounds e s out :
  main bus env rounds = (e, s, out) ->
  (exists quiet,
      Forall (fun ev => is_closed ev = false) quiet /\
      (out = quiet \/
       exists sf, s = Some sf /\ out = quiet ++ [Closed (dev sf)])) /\
  (e = Finished ->
   exists sf before, s = Some sf /\ out = before ++ [Stopped; Closed (dev sf)]).
Proof.
  intros Hmain.
  destruct (main_shape bus env rounds)
    as [(e' & out' & Heq & Hne & Hout & _)
       | (s0 & r & c & pre & ev & post & issued & rest
          & _ & Heq & Hpre & Hev & Hpost & _)];
    rewrite Heq in Hmain.
  - injection Hmain as <- <- <-. split; [| intros E; contradiction].
    exists out'. split; [| auto].
    destruct Hout as [-> | ->]; repeat constructor.
  - apply conclude_inv in Hmain as (-> & -> & Hfin). cbn [session console dev].
    assert (Hquiet : Forall (fun ev => is_closed ev = false) (pre ++ ev)).
    { apply Forall_app. split.
      - eapply Forall_impl; [exact Hpre | exact prelude_event_not_closed].
      - eapply Forall_impl; [exact Hev | exact loop_event_not_closed]. }
    split.
    + destruct r as [a | sig |]; cbn [epilogue] in Hpost.
      * subst post. exists ((pre ++ ev) ++ [Stopped]).
        split; [apply Forall_app; split; [exact Hquiet | repeat constructor] |].
        right. eexists. split; [reflexivity |]. now rewrite <- !app_assoc.
      * destruct Hpost as [-> | [-> | [-> | ->]]].
        -- exists (pre ++ ev). split; [exact Hquiet |]. left.
           now rewrite app_nil_r.
        -- exists ((pre ++ ev) ++ [Stopped]).
           split; [apply Forall_app; split; [exact Hquiet | repeat constructor] |].
           left. now rewrite <- !app_assoc.
        -- exists (pre ++ ev). split; [exact Hquiet |]. right.
           eexists. split; [reflexivity |]. now rewrite <- !app_assoc.
        -- exists ((pre ++ ev) ++ [Stopped]).
           split; [apply Forall_app; split; [exact Hquiet | repeat constructor] |].
           right. eexists. split; [reflexivity |]. now rewrite <- !app_assoc.
      * subst post. exists (pre ++ ev). split; [exact Hquiet |]. left.
        now rewrite app_nil_r.
    + intros E. destruct (Hfin E) as [a ->]. cbn [epilogue] in Hpost. subst post.
      eexists _, (pre ++ ev). split; [reflexivity |]. now rewrite <- !app_assoc.
Qed.

Lemma main_closes_last_witness :
  (exists quiet,
      Forall (fun ev => is_closed ev = false) quiet /\
      ([VersionRaw (PyList [PyInt 0; PyInt 0; PyInt 0; PyInt 0]);
        Banner; Stopped;
        Closed (with_transfers (obedient_device 0x001A 0) [version_request])] = quiet \/
       exists sf,
         Some (Session (with_transfers (obedient_device 0x001A 0) [version_request]))
           = Some sf /\
         [VersionRaw (PyList [PyInt 0; PyInt 0; PyInt 0; PyInt 0]);
          Banner; Stopped;
          Closed (with_transfers (obedient_device 0x001A 0) [version_request])]
           = quiet ++ [Closed (dev sf)])) /\
  (Finished = Finished ->
   exists sf before,
     Some (Session (with_transfers (obedient_device 0x001A 0) [version_request]))
       = Some sf /\
     [VersionRaw (PyList [PyInt 0; PyInt 0; PyInt 0; PyInt 0]);
      Banner; Stopped;
      Closed (with_transfers (obedient_device 0x001A 0) [version_request])]
       = before ++ [Stopped; Closed (dev sf)]).
Proof.
  apply (main_closes_last [obedient_device 0x001A 0] (only_interrupt 5) 1).
  reflexivity.
Defined.

(** X14: the transfers [main] issues on the device it found are a prefix
    of the fixed sequence VERSION, DOA_VALUE, AEC_AZIMUTH_VALUES,
    DOA_VALUE, AEC_AZIMUTH_VALUES, ... whatever the device answers and
    whatever is raised, at any point of the run; every one of them is an IN
    vendor request, so [main] never writes to the device.  (There is no
    session only when the search itself was interrupted.) *)
Theorem main_transfers bus env rounds s0 :
  find bus = Some s0 ->
  exists e s out issued rest,
    main bus env rounds = (e, s, out) /\
    match s with
    | Some sf => dev sf = with_transfers (dev s0) issued
    | None => env 0%nat <> None /\ issued = []
    end /\
    schedule rounds = issued ++ rest /\
    Forall (fun rq => bmRequestType rq = 0xC0 /\ exists k, wData rq = WLength k) issued.
Proof.
  intros Hfind.
  assert (Hprefix : forall issued rest,
            schedule rounds = issued ++ rest ->
            Forall (fun rq => bmRequestType rq = 0xC0 /\ exists k, wData rq = WLength k)
              issued).
  { intros issued rest Heq. pose proof (schedule_reads rounds) as H.
    rewrite Heq in H. now apply Forall_app in H as [H _]. }
  destruct (main_shape bus env rounds)
    as [(e' & out' & Heq & _ & _ & [Hnone | Henv])
       | (s1 & r & c & pre & ev & post & issued & rest
          & Hfind' & Heq & _ & _ & _ & Hsched)].
  - congruence.
  - exists e', None, out', [], (schedule rounds).
    split; [exact Heq |]. split; [auto |]. split; [reflexivity | constructor].
  - rewrite Hfind in Hfind'. injection Hfind' as <-.
    eexists _, _, _, issued, rest.
    split; [exact Heq |]. split; [reflexivity |].
    split; [exact Hsched | exact (Hprefix _ _ Hsched)].
Qed.

Lemma main_transfers_witness :
  exists e s out issued rest,
    main [dead_device 0x0099; constant_device 0x0018 [0; 44; 1; 1]]
      (only_interrupt 9) 2 = (e, s, out) /\
    match s with
    | Some sf =>
        dev sf =
          with_transfers (dev (Session (constant_device 0x0018 [0; 44; 1; 1]))) issued
    | None => only_interrupt 9 0%nat <> None /\ issued = []
    end /\
    schedule 2 = issued ++ rest /\
    Forall (fun rq => bmRequestType rq = 0xC0 /\ exists k, wData rq = WLength k) issued.
Proof.
  apply (main_transfers [dead_device 0x0099; constant_device 0x0018 [0; 44; 1; 1]]
           (only_interrupt 9) 2 (Session (constant_device 0x0018 [0; 44; 1; 1]))).
  reflexivity.
Defined.

(** X15: every azimuth line [main] prints shows two angles: since a
    successful read of [AEC_AZIMUTH_VALUES] always returns four values, the
    branch of the loop that prints [angle0] alone never runs. *)
Theorem main_azimuth_two_angles bus env rounds angle0 angle1 :
  AzimuthShown angle0 angle1 ∈ snd (main bus env rounds) ->
  exists a1, angle1 = Some a1.
Proof.
  destruct (main_shape bus env rounds)
    as [(e' & out' & -> & _ & Hout & _)
       | (s1 & r & c & pre & ev & post & issued & rest
          & _ & -> & Hpre & Hev & Hpost & _)];
    cbn [conclude snd console]; intros Hin.
  - destruct Hout as [-> | ->].
    + inversion Hin.
    + apply elem_of_cons in Hin as [Hin | Hin]; [discriminate | inversion Hin].
  - apply elem_of_app in Hin as [Hin | Hin].
    { rewrite Forall_forall in Hpre. destruct (Hpre _ Hin). }
    apply elem_of_app in Hin as [Hin | Hin].
    { rewrite Forall_forall in Hev. specialize (Hev _ Hin).
      destruct angle1 as [a1 |]; [eauto | destruct Hev]. }
    assert (Hpost' : post = [] \/ post = [Stopped] \/
                     post = [Closed (with_transfers (dev s1) issued)] \/
                     post = [Stopped; Closed (with_transfers (dev s1) issued)]).
    { destruct r; cbn [epilogue] in Hpost; auto. }
    destruct Hpost' as [-> | [-> | [-> | ->]]];
      repeat (apply elem_of_cons in Hin as [Hin | Hin]; [discriminate |]);
      inversion Hin.
Qed.

Lemma main_azimuth_two_angles_witness :
  exists a1, Some (S754_zero false) = Some a1.
Proof.
  apply (main_azimuth_two_angles [obedient_device 0x0018 0] silent 1
           (S754_zero false) (Some (S754_zero false))).
  vm_compute. do 4 apply list_elem_of_further. apply list_elem_of_here.
Defined.

(** ** A device that answers in full *)

Lemma obedient_answers_in_full pid b : answers_in_full (obedient_device pid b).
Proof.
  intros history rq n Hn Hpos. cbn. rewrite Hn.
  eexists. split; [reflexivity |]. rewrite length_replicate. lia.
Qed.

Lemma mbind_assoc {A B C} (m : M A) (k : A -> M B) (h : B -> M C) env st :
  mbind (mbind m k) h env st = mbind m (fun a => mbind (k a) h) env st.
Proof. unfold mbind. destruct (m env st) as [[a | sig |] st']; reflexivity. Qed.

(** One iteration and its [time.sleep], point by point. *)
Lemma round_in_full env st :
  answers_in_full (dev (session st)) ->
  exists doa line a0 a1,
    (_ <~ poll ;; say Slept) env st =
      match env (clock st) with
      | Some sig =>
          (Raised sig,
           RunState (1 + clock st) (console st)
             (Session (with_transfers (dev (session st)) [])))
      | None =>
      match env (1 + clock st)%nat with
      | Some sig =>
          (Raised sig,
           RunState (2 + clock st) (console st)
             (Session (with_transfers (dev (session st)) [doa_request])))
      | None =>
      match env (2 + clock st)%nat with
      | Some sig =>
          (Raised sig,
           RunState (3 + clock st) (console st ++ [RawDoa doa])
             (Session (with_transfers (dev (session st)) [doa_request])))
      | None =>
      match env (3 + clock st)%nat with
      | Some sig =>
          (Raised sig,
           RunState (4 + clock st) (console st ++ [RawDoa doa; DoaShown line])
             (Session (with_transfers (dev (session st)) [doa_request])))
      | None =>
      match env (4 + clock st)%nat with
      | Some sig =>
          (Raised sig,
           RunState (5 + clock st) (console st ++ [RawDoa doa; DoaShown line])
             (Session (with_transfers (dev (session st))
                         [doa_request; azimuth_request])))
      | None =>
      match env (5 + clock st)%nat with
      | Some sig =>
          (Raised sig,
           RunState (6 + clock st)
             (console st ++ [RawDoa doa; DoaShown line; AzimuthShown a0 (Some a1)])
             (Session (with_transfers (dev (session st))
                         [doa_request; azimuth_request])))
      | None =>
      match env (6 + clock st)%nat with
      | Some sig =>
          (Raised sig,
           RunState (7 + clock st)
             (console st ++ [RawDoa doa; DoaShown line; AzimuthShown a0 (Some a1);
                             Separator])
             (Session (with_transfers (dev (session st))
                         [doa_request; azimuth_request])))
      | None =>
          (Done tt,
           RunState (7 + clock st)
             (console st ++ [RawDoa doa; DoaShown line; AzimuthShown a0 (Some a1);
                             Separator; Slept])
             (Session (with_transfers (dev (session st))
                         [doa_request; azimuth_request])))
      end end end end end end end.
Proof.
  intros Hfull.
  destruct (Hfull (transfers (dev (session st))) doa_request 5 eq_refl ltac:(lia))
    as (response & Hresponse & Hlen).
  destruct (doa_fields_bytes response) as (shown & Hshown & Hline).
  destruct Hline as [line ->];
    [destruct response; [cbn in Hlen; lia | discriminate] |].
  destruct (Hfull (transfers (with_transfers (dev (session st)) [doa_request]))
              azimuth_request 17 eq_refl ltac:(lia))
    as (answer & Hanswer & Hlen').
  change (firmware (with_transfers (dev (session st)) [doa_request]))
    with (firmware (dev (session st))) in Hanswer.
  destruct (decode_azimuth_cases answer) as [Herr | (f0 & f1 & f2 & f3 & Hok)].
  { exfalso.
    pose proof (decode_radians_full (Entry 33 75 16 "ro" "radians") 4 answer
                  eq_refl eq_refl) as H.
    cbn [p_length] in H. rewrite H in Herr by (cbn; lia). discriminate. }
  exists (PyList (map PyInt response)), line, (degrees f0), (degrees f1).
  unfold poll, show_doa, show_azimuth, mbind, reading, say, step, pure.
  cbn [clock console session Nat.add].
  destruct (env (clock st)); [now rewrite with_transfers_nil; destruct (session st) |].
  rewrite read_doa_value, Hresponse. cbn [clock console session].
  destruct (env (S (clock st))); [reflexivity |].
  cbn [clock console session]. rewrite Hshown. cbn [clock console session].
  destruct (env (S (S (clock st)))); [reflexivity |].
  cbn [clock console session].
  destruct (env (S (S (S (clock st))))); [now rewrite <- !app_assoc |].
  cbn [clock console session].
  rewrite read_azimuth_values. cbn [dev].
  change (firmware (with_transfers (dev (session st)) [doa_request]))
    with (firmware (dev (session st))).
  rewrite Hanswer, Hok, azimuth_fields_four, with_transfers_app.
  cbn [app clock console session].
  destruct (env (S (S (S (S (clock st)))))); [now rewrite <- !app_assoc |].
  cbn [clock console session].
  destruct (env (S (S (S (S (S (clock st))))))); [now rewrite <- !app_assoc |].
  cbn [clock console session].
  destruct (env (S (S (S (S (S (S (clock st)))))))); now rewrite <- !app_assoc.
Qed.

Lemma round_completed env st :
  answers_in_full (dev (session st)) ->
  (forall j, (j < 7)%nat -> env (j + clock st)%nat = None) ->
  exists ev,
    (_ <~ poll ;; say Slept) env st =
      (Done tt,
       RunState (7 + clock st) (console st ++ ev)
         (Session (with_transfers (dev (session st))
                     [doa_request; azimuth_request]))) /\
    Forall loop_event ev /\
    length (List.filter is_azimuth ev) = 1%nat.
Proof.
  intros Hfull Hquiet.
  destruct (round_in_full env st Hfull) as (doa & line & a0 & a1 & ->).
  pose proof (Hquiet 0%nat) as H0. pose proof (Hquiet 1%nat) as H1.
  pose proof (Hquiet 2%nat) as H2. pose proof (Hquiet 3%nat) as H3.
  pose proof (Hquiet 4%nat) as H4. pose proof (Hquiet 5%nat) as H5.
  pose proof (Hquiet 6%nat) as H6.
  cbn [Nat.add] in *.
  rewrite H0, H1, H2, H3, H4, H5, H6 by lia.
  eexists. split; [reflexivity |]. split; [repeat constructor | reflexivity].
Qed.

Lemma round_interrupted env st r sig :
  answers_in_full (dev (session st)) ->
  (r < 7)%nat ->
  (forall j, (j < r)%nat -> env (j + clock st)%nat = None) ->
  env (r + clock st)%nat = Some sig ->
  exists ev,
    (_ <~ poll ;; say Slept) env st =
      (Raised sig,
       RunState (S (r + clock st)) (console st ++ ev)
         (Session (with_transfers (dev (session st)) (iteration_reads r)))) /\
    Forall loop_event ev /\
    length (List.filter is_azimuth ev) = (if (5 <=? r)%nat then 1 else 0)%nat.
Proof.
  intros Hfull Hr Hquiet Hsig.
  destruct (round_in_full env st Hfull) as (doa & line & a0 & a1 & ->).
  pose proof (Hquiet 0%nat) as H0. pose proof (Hquiet 1%nat) as H1.
  pose proof (Hquiet 2%nat) as H2. pose proof (Hquiet 3%nat) as H3.
  pose proof (Hquiet 4%nat) as H4. pose proof (Hquiet 5%nat) as H5.
  do 7 (destruct r as [| r];
        [ cbn [Nat.add] in *;
          (rewrite ?H0, ?H1, ?H2, ?H3, ?H4, ?H5 by lia);
          rewrite Hsig;
          eexists;
          (split; [first [reflexivity | rewrite app_nil_r; reflexivity] |]);
          (split; [| reflexivity]);
          repeat (constructor; try exact I)
        | ]).
  lia.
Qed.

(** The loop until a signal at point [r] of iteration [q] (counted
    from 0). *)
Lemma polling_interrupted env sig r q : forall rounds st,
  answers_in_full (dev (session st)) ->
  (r < 7)%nat -> (q < rounds)%nat ->
  (forall j, (j < 7 * q + r)%nat -> env (j + clock st)%nat = None) ->
  env (7 * q + r + clock st)%nat = Some sig ->
  exists ev,
    polling rounds env st =
      (Raised sig,
       RunState (S (7 * q + r + clock st)) (console st ++ ev)
         (Session (with_transfers (dev (session st))
                     (concat (replicate q [doa_request; azimuth_request])
                        ++ iteration_reads r)))) /\
    Forall loop_event ev /\
    length (List.filter is_azimuth ev) = (q + if (5 <=? r)%nat then 1 else 0)%nat.
Proof.
  induction q as [| q IH]; intros rounds st Hfull Hr Hq Hquiet Hsig;
    (destruct rounds as [| rounds]; [lia |]);
    cbn [polling]; rewrite <- mbind_assoc; unfold mbind at 1.
  - destruct (round_interrupted env st r sig Hfull Hr) as (ev & -> & Hev & Hcount).
    + intros j Hj. apply Hquiet. lia.
    + exact Hsig.
    + exists ev. split; [reflexivity |]. split; [exact Hev | exact Hcount].
  - destruct (round_completed env st Hfull) as (ev & -> & Hev & Hcount).
    { intros j Hj. apply Hquiet. lia. }
    destruct (IH rounds
                (RunState (7 + clock st) (console st ++ ev)
                   (Session (with_transfers (dev (session st))
                               [doa_request; azimuth_request]))))
      as (ev' & -> & Hev' & Hcount').
    + apply answers_in_full_with_transfers, Hfull.
    + exact Hr.
    + lia.
    + intros j Hj. cbn [clock].
      replace (j + (7 + clock st))%nat with ((j + 7) + clock st)%nat by lia.
      apply Hquiet. lia.
    + cbn [clock]. rewrite <- Hsig. f_equal. lia.
    + cbn [clock console session dev]. rewrite with_transfers_app.
      exists (ev ++ ev').
      split.
      * rewrite <- !app_assoc. do 2 f_equal. f_equal. lia.
      * split; [apply Forall_app; auto |].
        rewrite List.filter_app, length_app, Hcount, Hcount'. lia.
Qed.

Lemma only_interrupt_other k i : i <> k -> only_interrupt k i = None.
Proof.
  intros H. unfold only_interrupt.
  destruct (Nat.eqb_spec i k); [contradiction | reflexivity].
Qed.

Lemma only_interrupt_there k : only_interrupt k k = Some KeyboardInterrupt.
Proof. unfold only_interrupt. now rewrite Nat.eqb_refl. Qed.

(** X16: on a device whose transport never fails and that answers every
    request with as many bytes as asked, a single Ctrl+C that arrives once
    the [try] statement is entered (at point [r] of iteration [q] of the
    loop, wherever that is: before a read, before a [print] or during the
    [time.sleep]) makes [main] return normally: the stop message is printed,
    then the device is closed, and nothing was closed before.  Until then
    [main] has sent VERSION, the two requests of each completed iteration and
    those of the interrupted one that precede the signal, and it has printed
    one azimuth line per iteration that got that far. *)
Theorem main_finishes bus s0 q r rounds :
  find bus = Some s0 ->
  answers_in_full (dev s0) ->
  (r < 7)%nat -> (q < rounds)%nat ->
  exists s out,
    main bus (only_interrupt (5 + 7 * q + r)) rounds =
      (Finished, Some s, out ++ [Stopped; Closed (dev s)]) /\
    Forall (fun ev => is_closed ev = false) out /\
    dev s = with_transfers (dev s0) (schedule q ++ iteration_reads r) /\
    length (List.filter is_azimuth out) =
      (q + if (5 <=? r)%nat then 1 else 0)%nat.
Proof.
  intros Hfind Hfull Hr Hq.
  set (k := (5 + 7 * q + r)%nat).
  unfold main. rewrite Hfind.
  rewrite (only_interrupt_other k 0) by lia.
  unfold mbind at 1, reading at 1.
  rewrite step_quiet by (apply only_interrupt_other; cbn; lia).
  cbn [clock console session]. rewrite read_version.
  destruct (Hfull (transfers (dev s0)) version_request 4 eq_refl ltac:(lia))
    as (response & -> & _).
  unfold mbind at 1, say at 1.
  rewrite step_quiet by (apply only_interrupt_other; cbn; lia).
  cbn [clock console session app].
  unfold mbind at 1, say at 1.
  rewrite step_quiet by (apply only_interrupt_other; cbn; lia).
  cbn [clock console session app].
  unfold mbind at 1, checkpoint at 1.
  rewrite step_quiet by (apply only_interrupt_other; cbn; lia).
  cbn [clock console session app].
  unfold guarded.
  destruct (polling_interrupted (only_interrupt k) KeyboardInterrupt r q rounds
              (RunState 5 [VersionRaw (PyList (map PyInt response)); Banner]
                 (Session (with_transfers (dev s0) [version_request]))))
    as (ev & -> & Hev & Hcount).
  - apply answers_in_full_with_transfers, Hfull.
  - exact Hr.
  - exact Hq.
  - intros j Hj. apply only_interrupt_other. cbn [clock]. lia.
  - cbn [clock]. replace (7 * q + r + 5)%nat with k by lia.
    apply only_interrupt_there.
  - cbn [clock console session dev]. unfold say.
    rewrite step_quiet by (apply only_interrupt_other; cbn; lia).
    cbn [clock console session].
    unfold closing. rewrite step_quiet by (apply only_interrupt_other; cbn; lia).
    cbn [clock console session].
    unfold checkpoint. rewrite step_quiet by (apply only_interrupt_other; cbn; lia).
    cbn [clock console session conclude close dev].
    rewrite with_transfers_app.
    eexists _, ([VersionRaw (PyList (map PyInt response)); Banner] ++ ev).
    split; [now rewrite <- !app_assoc |].
    split; [| split].
    + constructor; [reflexivity |]. constructor; [reflexivity |].
      eapply Forall_impl; [exact Hev | exact loop_event_not_closed].
    + reflexivity.
    + cbn. exact Hcount.
Qed.

Lemma main_finishes_witness :
  exists s out,
    main [dead_device 0x0099; obedient_device 0x001A 0]
      (only_interrupt (5 + 7 * 1 + 4)) 2 =
      (Finished, Some s, out ++ [Stopped; Closed (dev s)]) /\
    Forall (fun ev => is_closed ev = false) out /\
    dev s = with_transfers (dev (Session (obedient_device 0x001A 0)))
              (schedule 1 ++ iteration_reads 4) /\
    length (List.filter is_azimuth out) = (1 + if (5 <=? 4)%nat then 1 else 0)%nat.
Proof.
  apply (main_finishes [dead_device 0x0099; obedient_device 0x001A 0]
           (Session (obedient_device 0x001A 0)) 1 4 2).
  - reflexivity.
  - apply obedient_answers_in_full.
  - lia.
  - lia.
Defined.

(** ** Exact rounding

    Rounding does nothing to a value that already fits the format, and
    shifts out trailing zero bits without touching the rest. *)

Section Exactness.
Variables prec emax : Z.

Lemma shr_1_even z :
  0 < z -> shr_1 (Build_shr_record (2 * z) false false) = Build_shr_record z false false.
Proof. destruct z; try lia. intros _. reflexivity. Qed.

Lemma iter_pos_shr_1_exact p : forall z,
  0 < z ->
  SpecFloat.iter_pos shr_1 p (Build_shr_record (z * 2 ^ Z.pos p) false false) =
    Build_shr_record z false false.
Proof.
  induction p as [p IH | p IH |]; intros z Hz; cbn [SpecFloat.iter_pos].
  - assert (H2p : 0 < 2 ^ Z.pos p) by (apply Z.pow_pos_nonneg; lia).
    replace (z * 2 ^ Z.pos p~1) with (2 * ((z * 2 ^ Z.pos p) * 2 ^ Z.pos p)).
    + rewrite shr_1_even by nia. rewrite IH by nia. apply IH, Hz.
    + rewrite (Pos2Z.inj_xI p).
      replace (2 * Z.pos p + 1) with (Z.pos p + Z.pos p + 1) by lia.
      rewrite !Z.pow_add_r by lia. ring.
  - assert (H2p : 0 < 2 ^ Z.pos p) by (apply Z.pow_pos_nonneg; lia).
    replace (z * 2 ^ Z.pos p~0) with ((z * 2 ^ Z.pos p) * 2 ^ Z.pos p).
    + rewrite IH by nia. apply IH, Hz.
    + rewrite (Pos2Z.inj_xO p).
      replace (2 * Z.pos p) with (Z.pos p + Z.pos p) by lia.
      rewrite Z.pow_add_r by lia. ring.
  - change (2 ^ 1) with 2. rewrite Z.mul_comm. apply shr_1_even, Hz.
Qed.

(** A mantissa that already sits at the format's exponent is kept. *)
Lemma binary_round_aux_exact s (m : positive) e :
  SpecFloat.fexp prec emax (Zdigits2 (Z.pos m) + e) = e ->
  e <= emax - prec ->
  binary_round_aux prec emax s (Z.pos m) e loc_Exact = S754_finite s m e.
Proof.
  intros Hc He. unfold binary_round_aux, shr_fexp.
  rewrite Hc, Z.sub_diag. cbn [shr shr_record_of_loc shr_m loc_of_shr_record round_nearest_even].
  rewrite Hc, Z.sub_diag. cbn [shr shr_record_of_loc shr_m].
  rewrite (proj2 (Z.leb_le _ _) He). reflexivity.
Qed.

(** Trailing zero bits are shifted out without rounding. *)
Lemma binary_round_aux_shift s (m k : positive) e :
  SpecFloat.fexp prec emax (Zdigits2 (Z.pos m) + e) = e ->
  e <= emax - prec ->
  binary_round_aux prec emax s (Z.pos m * 2 ^ Z.pos k) (e - Z.pos k) loc_Exact =
    S754_finite s m e.
Proof.
  intros Hc He.
  assert (Hd : Zdigits2 (Z.pos m * 2 ^ Z.pos k) = Zdigits2 (Z.pos m) + Z.pos k).
  { assert (0 < Z.pos m * 2 ^ Z.pos k)
      by (apply Z.mul_pos_pos; [lia | apply Z.pow_pos_nonneg; lia]).
    rewrite !Zdigits2_log2 by lia. rewrite Z.log2_mul_pow2 by lia. lia. }
  unfold binary_round_aux, shr_fexp.
  rewrite Hd.
  replace (Zdigits2 (Z.pos m) + Z.pos k + (e - Z.pos k)) with (Zdigits2 (Z.pos m) + e) by lia.
  rewrite Hc.
  replace (e - (e - Z.pos k)) with (Z.pos k) by lia.
  cbn [shr shr_record_of_loc].
  rewrite iter_pos_shr_1_exact by lia.
  cbn [shr_m loc_of_shr_record round_nearest_even].
  replace (e - Z.pos k + Z.pos k) with e by lia.
  rewrite Hc, Z.sub_diag. cbn [shr shr_record_of_loc shr_m].
  rewrite (proj2 (Z.leb_le _ _) He). reflexivity.
Qed.

(** Rounding a value with fewer digits than the format has, in the normal
    range of the format: the mantissa is padded with zero bits. *)
Lemma binary_round_widen s (m : positive) e :
  Zdigits2 (Z.pos m) <= prec ->
  SpecFloat.emin prec emax <= Zdigits2 (Z.pos m) + e - prec ->
  Zdigits2 (Z.pos m) + e <= emax ->
  exists m',
    binary_round prec emax s m e =
      S754_finite s m' (Zdigits2 (Z.pos m) + e - prec) /\
    Z.pos m' = Z.pos m * 2 ^ (prec - Zdigits2 (Z.pos m)).
Proof.
  intros Hd Hmin Hmax. unfold binary_round.
  change (Z.pos (digits2_pos m)) with (Zdigits2 (Z.pos m)).
  assert (Hf : SpecFloat.fexp prec emax (Zdigits2 (Z.pos m) + e) =
               Zdigits2 (Z.pos m) + e - prec)
    by (unfold SpecFloat.fexp; lia).
  rewrite Hf.
  pose proof (shl_align_spec m e (Zdigits2 (Z.pos m) + e - prec)) as Hal.
  unfold shl_align in *.
  destruct (Zdigits2 (Z.pos m) + e - prec - e) as [| k | k] eqn:Ek.
  - exists m. assert (Hk : prec - Zdigits2 (Z.pos m) = 0) by lia.
    rewrite Hk, Z.pow_0_r, Z.mul_1_r. split; [| reflexivity].
    replace (Zdigits2 (Z.pos m) + e - prec) with e by lia.
    apply binary_round_aux_exact; [unfold SpecFloat.fexp; lia | lia].
  - lia.
  - destruct Hal as [Hdig _].
    exists (Pos.iter xO m k). split.
    + apply binary_round_aux_exact; [| lia].
      rewrite Hdig. exact Hf.
    + rewrite pos_iter_xO. do 2 f_equal. lia.
Qed.
End Exactness.

(** Widening a single to a double and rounding it back to single precision
    returns the single. *)
Lemma round_single_double_of_single r :
  valid_binary f32_prec f32_emax r = true ->
  round_single (double_of_single r) = r.
Proof.
  destruct r as [s | s | | s m e]; try reflexivity.
  cbn [valid_binary double_of_single]. intros Hv.
  pose proof Hv as Hb. unfold bounded in Hb. apply andb_prop in Hb as [Hc He].
  unfold canonical_mantissa in Hc. apply Z.eqb_eq in Hc. apply Z.leb_le in He.
  change (Z.pos (digits2_pos m)) with (Zdigits2 (Z.pos m)) in Hc.
  pose proof (Zdigits2_pos (Z.pos m) ltac:(lia)) as Hd.
  assert (Hd24 : Zdigits2 (Z.pos m) <= 24 /\ -149 <= e).
  { unfold SpecFloat.fexp, SpecFloat.emin, f32_prec, f32_emax in Hc. lia. }
  unfold f32_prec, f32_emax in He.
  destruct (binary_round_widen 53 1024 s m e) as (m' & -> & Hm');
    [lia | unfold SpecFloat.emin; lia | lia |].
  cbn [round_single]. unfold binary_round.
  change (Z.pos (digits2_pos m')) with (Zdigits2 (Z.pos m')).
  set (k := 53 - Zdigits2 (Z.pos m)) in *.
  assert (Hk : 0 < k) by (unfold k; lia).
  assert (Hdm' : Zdigits2 (Z.pos m') = Zdigits2 (Z.pos m) + k).
  { rewrite Hm'. rewrite !Zdigits2_log2; [| lia |].
    - rewrite Z.log2_mul_pow2 by lia. lia.
    - apply Z.mul_pos_pos; [lia | apply Z.pow_pos_nonneg; lia]. }
  rewrite Hdm'.
  replace (Zdigits2 (Z.pos m) + k + (Zdigits2 (Z.pos m) + e - 53))
    with (Zdigits2 (Z.pos m) + e) by (unfold k; lia).
  rewrite Hc. unfold shl_align.
  replace (e - (Zdigits2 (Z.pos m) + e - 53)) with k by (unfold k; lia).
  destruct k as [| kp | kp] eqn:Ek; try lia.
  rewrite Hm'.
  replace (Zdigits2 (Z.pos m) + e - 53) with (e - Z.pos kp) by lia.
  apply binary_round_aux_shift; [exact Hc | exact He].
Qed.

(** ** Unpacking, then packing *)

Lemma le_combine_range bs :
  Forall is_byte bs -> 0 <= le_combine bs < 256 ^ Z.of_nat (length bs).
Proof.
  induction 1 as [| b bs Hb _ IH]; [cbn; lia |].
  cbn [le_combine length]. rewrite Nat2Z.inj_succ, Z.pow_succ_r by lia.
  unfold is_byte in Hb. lia.
Qed.

Lemma le_split_combine bs :
  Forall is_byte bs -> le_split (length bs) (le_combine bs) = bs.
Proof.
  induction 1 as [| b bs Hb _ IH]; [reflexivity |].
  cbn [le_combine length le_split]. unfold is_byte in Hb.
  replace ((b + 256 * le_combine bs) mod 256) with b
    by (Z.div_mod_to_equations; lia).
  replace ((b + 256 * le_combine bs) / 256) with (le_combine bs)
    by (Z.div_mod_to_equations; lia).
  now rewrite IH.
Qed.

Lemma Zdigits2_lt (m d : Z) : 0 < m -> m < 2 ^ d -> Zdigits2 m <= d.
Proof.
  intros Hm Hlt. rewrite Zdigits2_log2 by exact Hm.
  destruct (Z.le_gt_cases d 0) as [Hd | Hd].
  - assert (2 ^ d <= 1); [| lia].
    destruct (Z.eq_dec d 0) as [-> | ?]; [reflexivity |].
    rewrite Z.pow_neg_r by lia. lia.
  - assert (Z.log2 m < d) by (apply Z.log2_lt_pow2; lia). lia.
Qed.

(** Every 32-bit pattern denotes a value of the single format. *)
Lemma f32_value_valid w : valid_binary f32_prec f32_emax (f32_value w) = true.
Proof.
  unfold f32_value.
  pose proof (Z.mod_pos_bound (w / 2 ^ 23) 256 ltac:(lia)) as He.
  pose proof (Z.mod_pos_bound w (2 ^ 23) ltac:(lia)) as Hm.
  set (e := (w / 2 ^ 23) mod 256) in *. set (m := w mod 2 ^ 23) in *.
  destruct (Z.eqb_spec e 0) as [He0 | He0].
  - destruct m as [| p | p] eqn:Em; try reflexivity.
    cbn [valid_binary]. unfold bounded, canonical_mantissa.
    change (Z.pos (digits2_pos p)) with (Zdigits2 (Z.pos p)).
    pose proof (Zdigits2_lt (Z.pos p) 23 ltac:(lia) ltac:(lia)).
    pose proof (Zdigits2_pos (Z.pos p) ltac:(lia)).
    apply andb_true_intro. split; [apply Z.eqb_eq | apply Z.leb_le];
      unfold SpecFloat.fexp, SpecFloat.emin, f32_prec, f32_emax; lia.
  - destruct (Z.eqb_spec e 255) as [He255 | He255].
    + destruct (m =? 0); reflexivity.
    + destruct (m + 2 ^ 23) as [| p | p] eqn:Ep; try reflexivity.
      cbn [valid_binary]. unfold bounded, canonical_mantissa.
      change (Z.pos (digits2_pos p)) with (Zdigits2 (Z.pos p)).
      rewrite (Zdigits2_unique (Z.pos p) 24)
        by (change (2 ^ (24 - 1)) with (2 ^ 23); change (2 ^ 24) with (2 ^ 23 + 2 ^ 23); lia).
      apply andb_true_intro. split; [apply Z.eqb_eq | apply Z.leb_le];
        unfold SpecFloat.fexp, SpecFloat.emin, f32_prec, f32_emax; lia.
Qed.

Lemma join_bits_split w :
  0 <= w < 2 ^ 32 ->
  join_bits (Z.testbit w 31) ((w / 2 ^ 23) mod 256) (w mod 2 ^ 23) = w.
Proof.
  intros Hw. unfold join_bits.
  pose proof (Z.testbit_spec' w 31 ltac:(lia)) as Hbit.
  change (2 ^ 31) with 2147483648 in *. change (2 ^ 23) with 8388608.
  change (2 ^ 32) with 4294967296 in *.
  destruct (Z.testbit w 31); cbn [Z.b2z] in Hbit;
    Z.div_mod_to_equations; lia.
Qed.

Lemma f32_bits_value w :
  0 <= w < 2 ^ 32 -> f32_value w <> S754_nan -> f32_bits (f32_value w) = w.
Proof.
  intros Hw Hnan. rewrite <- (join_bits_split w Hw) at 2.
  unfold f32_value in *. cbv zeta in *.
  pose proof (Z.mod_pos_bound (w / 2 ^ 23) 256 ltac:(lia)) as He.
  pose proof (Z.mod_pos_bound w (2 ^ 23) ltac:(lia)) as Hm.
  set (e := (w / 2 ^ 23) mod 256) in *. set (m := w mod 2 ^ 23) in *.
  destruct (Z.eqb_spec e 0) as [He0 | He0].
  - rewrite He0. destruct m as [| p | p] eqn:Em; try lia; cbn [f32_bits].
    + reflexivity.
    + rewrite (proj2 (Z.ltb_lt _ _) (proj2 Hm)). reflexivity.
  - destruct (Z.eqb_spec e 255) as [He255 | He255].
    + rewrite He255. destruct (Z.eqb_spec m 0) as [Hm0 | Hm0]; [| contradiction].
      rewrite Hm0. reflexivity.
    + destruct (m + 2 ^ 23) as [| p | p] eqn:Ep; try lia. cbn [f32_bits].
      rewrite (proj2 (Z.ltb_ge _ _)) by lia.
      f_equal; lia.
Qed.

(** X17: unpacking four bytes and packing the value again returns the same
    four bytes, for every bit pattern that is not a NaN: widening a single
    to a double and casting it back loses nothing. *)
Theorem pack_unpack_f (bs : list Z) :
  length bs = 4%nat ->
  Forall is_byte bs ->
  f32_value (le_combine bs) <> S754_nan ->
  pack_f (unpack_f bs) = Return bs.
Proof.
  intros Hlen Hb Hnan.
  pose proof (le_combine_range bs Hb) as Hw. rewrite Hlen in Hw.
  change (256 ^ Z.of_nat 4) with (2 ^ 32) in Hw.
  pose proof (f32_value_valid (le_combine bs)) as Hv.
  pose proof (f32_bits_value _ Hw Hnan) as Hbits.
  pose proof (le_split_combine bs Hb) as Hsplit. rewrite Hlen in Hsplit.
  pose proof (round_single_double_of_single _ Hv) as Hround.
  unfold unpack_f, pack_f.
  now rewrite Hround, Hbits, Hsplit.
Qed.

Lemma pack_unpack_f_witness : pack_f (unpack_f half_pi_bytes) = Return half_pi_bytes.
Proof.
  apply (pack_unpack_f half_pi_bytes).
  - reflexivity.
  - repeat constructor; cbn; lia.
  - vm_compute. discriminate.
Defined.
